(** * Pixshop: the Claid.ai proxy function

    A shallow embedding of [netlify/functions/claid-proxy.ts]: the
    serverless [handler] that receives an image as a Base64 data URL
    together with editing instructions, forwards both to the Claid.ai
    image-processing endpoint and relays the answer.

    The handler is pure control flow around a handful of platform
    services: [JSON.parse] / [JSON.stringify], [String.prototype.split],
    [Array.prototype.pop], Node's [Buffer] Base64 codec, the [form-data]
    encoder and [node-fetch].  String splitting, [pop], JavaScript
    truthiness and the Base64 codec are modelled concretely below; the
    JSON codec, the multipart boundary and the upstream server are the
    fields of a [Platform] the handler is parameterised by. *)

From Stdlib Require Import ZArith String Ascii List Bool Lia.
From Stdlib.Strings Require Import Byte.
From Stdlib Require Import Floats.PrimFloat.
Import ListNotations.

Open Scope list_scope.
Open Scope string_scope.

(* ================================================================= *)
(** ** JavaScript strings and arrays *)

(** [startsWith p s]: the string [s] begins with [p]. *)
Fixpoint startsWith (p s : string) : bool :=
  match p, s with
  | EmptyString, _ => true
  | String _ _, EmptyString => false
  | String a p', String b s' => if Ascii.eqb a b then startsWith p' s' else false
  end.

(** [includes sep s]: [sep] occurs somewhere in [s]. *)
Fixpoint includes (sep s : string) : bool :=
  startsWith sep s ||
  match s with
  | EmptyString => false
  | String _ s' => includes sep s'
  end.

(** The scan behind [String.prototype.split] for a non-empty separator.
    [cur] is the segment collected so far; [skip] counts the characters
    of a separator occurrence that are still to be stepped over.
    Occurrences are taken greedily from the left and never overlap. *)
Fixpoint split_from (sep : string) (skip : nat) (cur s : string) : list string :=
  match s with
  | EmptyString => [cur]
  | String c rest =>
      match skip with
      | S k => split_from sep k cur rest
      | O =>
          if startsWith sep s
          then cur :: split_from sep (String.length sep - 1) EmptyString rest
          else split_from sep 0 (cur ++ String c EmptyString) rest
      end
  end.

(** [s.split("")] yields the characters of [s], one string each. *)
Fixpoint chars (s : string) : list string :=
  match s with
  | EmptyString => []
  | String c rest => String c EmptyString :: chars rest
  end.

(** [s.split(sep)] without a limit. *)
Definition split (sep s : string) : list string :=
  match sep with
  | EmptyString => chars s
  | String _ _ => split_from sep 0 EmptyString s
  end.

(** [arr.pop()]: the last element, [None] (JavaScript [undefined]) on
    an empty array. *)
Fixpoint pop {A : Type} (l : list A) : option A :=
  match l with
  | [] => None
  | [x] => Some x
  | _ :: l' => pop l'
  end.

(* ================================================================= *)
(** ** Node's Buffer and its Base64 codec *)

Definition Buffer := list byte.

Definition byte_to_Z (b : byte) : Z := Z.of_N (Byte.to_N b).

(** Storing an integer into a [uint8_t] cell keeps its low eight bits. *)
Definition byte_of_Z (z : Z) : byte :=
  match Byte.of_N (Z.to_N (Z.land z 255)) with
  | Some b => b
  | None => x00
  end.

Definition base64_table : string :=
  "ABCDEFGHIJKLMNOPQRSTUVWXYZabcdefghijklmnopqrstuvwxyz0123456789+/".

(** [base64_table[n]] *)
Definition table (n : Z) : ascii :=
  match String.get (Z.to_nat n) base64_table with
  | Some c => c
  | None => "="%char
  end.

(** [buf.toString('base64')]: three bytes become four characters of the
    standard alphabet; a tail of one or two bytes is padded with [=]. *)
Fixpoint toString_base64 (buf : Buffer) : string :=
  match buf with
  | [] => EmptyString
  | [a] =>
      let a := byte_to_Z a in
      String (table (Z.shiftr a 2))
     (String (table (Z.shiftl (Z.land a 3) 4))
     "==")
  | [a; b] =>
      let a := byte_to_Z a in
      let b := byte_to_Z b in
      String (table (Z.shiftr a 2))
     (String (table (Z.lor (Z.shiftl (Z.land a 3) 4) (Z.shiftr b 4)))
     (String (table (Z.shiftl (Z.land b 15) 2))
     "="))
  | a :: b :: c :: rest =>
      let a := byte_to_Z a in
      let b := byte_to_Z b in
      let c := byte_to_Z c in
      String (table (Z.shiftr a 2))
     (String (table (Z.lor (Z.shiftl (Z.land a 3) 4) (Z.shiftr b 4)))
     (String (table (Z.lor (Z.shiftl (Z.land b 15) 2) (Z.shiftr c 6)))
     (String (table (Z.land c 63))
     (toString_base64 rest))))
  end.

(** Node's [unbase64]: the six-bit value of a character of the standard
    or the URL-safe alphabet, a negative number for any other one. *)
Definition unbase64 (c : ascii) : Z :=
  let n := Z.of_N (N_of_ascii c) in
  if (65 <=? n)%Z && (n <=? 90)%Z then (n - 65)%Z
  else if (97 <=? n)%Z && (n <=? 122)%Z then (n - 71)%Z
  else if (48 <=? n)%Z && (n <=? 57)%Z then (n + 4)%Z
  else if (n =? 43)%Z || (n =? 45)%Z then 62%Z
  else if (n =? 47)%Z || (n =? 95)%Z then 63%Z
  else (-1)%Z.

(** Node's forgiving decoder.  Characters outside the alphabet are
    skipped, the first [=] ends the input, and a byte is stored as soon
    as the second, third and fourth character of a group is read.
    [pos] is the position in the current group of four, [hi] the value
    of the previous legal character. *)
Fixpoint decode_from (pos : nat) (hi : Z) (s : string) : Buffer :=
  match s with
  | EmptyString => []
  | String c rest =>
      let lo := unbase64 c in
      if (0 <=? lo)%Z then
        match pos with
        | 0 => decode_from 1 lo rest
        | 1 =>
            byte_of_Z (Z.lor (Z.shiftl (Z.land hi 63) 2) (Z.shiftr (Z.land lo 48) 4))
              :: decode_from 2 lo rest
        | 2 =>
            byte_of_Z (Z.lor (Z.shiftl (Z.land hi 15) 4) (Z.shiftr (Z.land lo 60) 2))
              :: decode_from 3 lo rest
        | _ =>
            byte_of_Z (Z.lor (Z.shiftl (Z.land hi 3) 6) (Z.land lo 63))
              :: decode_from 0 lo rest
        end
      else if Ascii.eqb c "="%char then []
      else decode_from pos hi rest
  end.

(** [Buffer.from(s, 'base64')] *)
Definition Buffer_from_base64 (s : string) : Buffer := decode_from 0 0 s.

(** Every byte, for the checks of the codec that run over all of them. *)
Definition all_bytes : list byte :=
  map (fun n => byte_of_Z (Z.of_nat n)) (seq 0 256).

(** Equality test on buffers. *)
Fixpoint Buffer_eqb (x y : Buffer) : bool :=
  match x, y with
  | [], [] => true
  | a :: x', b :: y' => Byte.eqb a b && Buffer_eqb x' y'
  | _, _ => false
  end.

(* ================================================================= *)
(** ** JavaScript values *)

#[local] Set Warnings "-register-all".

(** The values [JSON.parse] produces.  A number is an IEEE 754 double.
    An object lists its own properties in property order. *)
Inductive json : Type :=
| JNull
| JBool (b : bool)
| JNumber (x : float)
| JString (s : string)
| JArray (items : list json)
| JObject (props : list (string * json)).

(** [!!v] for a defined value: [null], [false], [0], [-0], [NaN] and the
    empty string are falsy, every other value (objects and arrays
    included) is truthy. *)
Definition truthy (v : json) : bool :=
  match v with
  | JNull => false
  | JBool b => b
  | JNumber x => negb (PrimFloat.eqb x 0%float || negb (PrimFloat.eqb x x))
  | JString s => negb (String.eqb s EmptyString)
  | JArray _ => true
  | JObject _ => true
  end.

(** [a || d] on a string that may be [null] or [undefined]. *)
Definition or_else (a : option string) (d : string) : string :=
  match a with
  | Some s => if String.eqb s EmptyString then d else s
  | None => d
  end.

Fixpoint own_property (k : string) (props : list (string * json)) : option json :=
  match props with
  | [] => None
  | (k', v) :: rest => if String.eqb k k' then Some v else own_property k rest
  end.

(** [v.k] for a key [k] that no built-in prototype defines, which is the
    case of [imageBase64] and [instructions]: an object answers with its
    own property, every other non-null value with [undefined]. *)
Definition get (v : json) (k : string) : option json :=
  match v with
  | JObject props => own_property k props
  | _ => None
  end.

(** What a JavaScript [throw] carries here. *)
Inductive exn : Type :=
| SyntaxError (message : string)
| TypeError (message : string)
| FetchError (message : string).

(** The outcome of evaluating an expression or awaiting a promise. *)
Inductive completion (A : Type) : Type :=
| Return (a : A)
| Throw (e : exn).
Arguments Return {A} a.
Arguments Throw {A} e.

(** [const { imageBase64, instructions } = v]: destructuring [null]
    throws, any other value is read property by property. *)
Definition destructure (v : json) : completion (option json * option json) :=
  match v with
  | JNull => Throw (TypeError "Cannot destructure property 'imageBase64' of 'null' as it is null.")
  | _ => Return (get v "imageBase64", get v "instructions")
  end.

(** [v.split(sep)]: only a string has a [split] method; a JSON value
    stored under the key [split] of an object is not callable. *)
Definition call_split (v : json) (sep : string) : completion (list string) :=
  match v with
  | JString s => Return (split sep s)
  | _ => Throw (TypeError "imageBase64.split is not a function")
  end.

(* ================================================================= *)
(** ** The outbound request and the upstream response *)

Inductive part_value : Type :=
| BufferValue (b : Buffer)
| StringValue (s : string).

(** One [formData.append(name, value, options)]. *)
Record form_part : Type := {
  part_name : string;
  part_data : part_value;
  part_filename : option string;
  part_contentType : option string
}.

(** The arguments of one [fetch(url, { method, headers, body })]. *)
Record request : Type := {
  url : string;
  method : string;
  request_headers : list (string * string);
  request_body : list form_part
}.

(** A node-fetch [Response]: the status, the entries of its [Headers]
    object (a name paired with a value, once per value stored under that
    name), and what awaiting [text()] and [buffer()] gives. *)
Record FetchResponse : Type := {
  status : Z;
  response_headers : list (string * string);
  text : completion string;
  buffer : completion Buffer
}.

(** [response.ok] *)
Definition ok (r : FetchResponse) : bool :=
  (200 <=? status r)%Z && (status r <? 300)%Z.

Definition toLowerCase_char (c : ascii) : ascii :=
  let n := nat_of_ascii c in
  if (65 <=? n)%nat && (n <=? 90)%nat then ascii_of_nat (n + 32) else c.

Fixpoint toLowerCase (s : string) : string :=
  match s with
  | EmptyString => EmptyString
  | String c rest => String (toLowerCase_char c) (toLowerCase rest)
  end.

Fixpoint header_values (name : string) (hs : list (string * string)) : list string :=
  match hs with
  | [] => []
  | (n, v) :: rest =>
      if String.eqb (toLowerCase n) (toLowerCase name)
      then v :: header_values name rest
      else header_values name rest
  end.

(** [response.headers.get(name)]: header names compare without case,
    the values under a name are joined with a comma, an absent name
    gives [null]. *)
Definition Headers_get (r : FetchResponse) (name : string) : option string :=
  match header_values name (response_headers r) with
  | [] => None
  | v :: vs => Some (String.concat ", " (v :: vs))
  end.

(* ================================================================= *)
(** ** Effects *)

Inductive log_detail : Type :=
| UpstreamFailure (status : Z) (body : string)
| Thrown (e : exn).

(** What the handler does to the outside world. *)
Inductive effect : Type :=
| Fetch (req : request)
| ConsoleError (label : string) (detail : log_detail).

(** A computation lists its effects in order and completes normally or
    abruptly. *)
Definition M (A : Type) : Type := (list effect * completion A)%type.

Definition ret {A : Type} (a : A) : M A := ([], Return a).

Definition bind {A B : Type} (m : M A) (k : A -> M B) : M B :=
  match m with
  | (t, Return a) => let (t', r) := k a in ((t ++ t')%list, r)
  | (t, Throw e) => (t, Throw e)
  end.

Definition lift {A : Type} (c : completion A) : M A := ([], c).

Definition emit (e : effect) : M unit := ([e], Return tt).

(** [try { m } catch (error) { h error }] *)
Definition try_catch {A : Type} (m : M A) (h : exn -> M A) : M A :=
  match m with
  | (t, Return a) => (t, Return a)
  | (t, Throw e) => let (t', r) := h e in ((t ++ t')%list, r)
  end.

Notation "x <- m ;; k" := (bind m (fun x => k))
  (at level 61, m at next level, right associativity).
Notation "m ;;; k" := (bind m (fun _ => k))
  (at level 61, right associativity).

(** The requests a trace sent upstream. *)
Fixpoint fetches (t : list effect) : list request :=
  match t with
  | [] => []
  | Fetch req :: rest => req :: fetches rest
  | ConsoleError _ _ :: rest => fetches rest
  end.

(** The lines a trace wrote with [console.error]. *)
Fixpoint logs (t : list effect) : list (string * log_detail) :=
  match t with
  | [] => []
  | Fetch _ :: rest => logs rest
  | ConsoleError label detail :: rest => (label, detail) :: logs rest
  end.

(* ================================================================= *)
(** ** The platform *)

(** The services the handler calls and this file leaves open:
    [JSON.parse] (which may throw), [JSON.stringify] on values that came
    out of [JSON.parse] or were built from strings, the boundary the
    form encoder picks for the multipart body, and the outcome of
    [await fetch(...)] for a request: a response, or a thrown error when
    the network fails. *)
Class Platform : Type := {
  JSON_parse : string -> completion json;
  JSON_stringify : json -> string;
  boundary : string;
  upstream : request -> completion FetchResponse
}.

(** The value [handler] resolves to. *)
Record HandlerResponse : Type := {
  statusCode : Z;
  headers : option (list (string * string));
  body : string
}.

(** The part of a Netlify [HandlerEvent] the handler reads. *)
Record HandlerEvent : Type := {
  httpMethod : string;
  event_body : option string
}.

(** The same platform with another [JSON.parse]. *)
Definition with_JSON_parse (p : Platform) (parse : string -> completion json) : Platform :=
  {| JSON_parse := parse;
     JSON_stringify := @JSON_stringify p;
     boundary := @boundary p;
     upstream := @upstream p |}.

(* ================================================================= *)
(** ** netlify/functions/claid-proxy.ts *)

Definition CLAID_API_KEY : string := "b075a8d36b374209ac11df342fe68a73".
Definition CLAID_API_BASE_URL : string := "https://api.claid.ai/v1/image-processing".

Section Handler.

Context {platform : Platform}.

(** [JSON.stringify({ error: message })] *)
Definition error_json (message : string) : string :=
  JSON_stringify (JObject [("error", JString message)]).

Definition error_response (code : Z) (message : string) : HandlerResponse :=
  {| statusCode := code; headers := None; body := error_json message |}.

(** [formData.getHeaders()] *)
Definition FormData_getHeaders : list (string * string) :=
  [("content-type", "multipart/form-data; boundary=" ++ boundary)].

(** [await fetch(url, init)]: the request goes out, then the platform
    answers. *)
Definition fetch (req : request) : M FetchResponse :=
  emit (Fetch req) ;;; lift (upstream req).

Definition console_error (label : string) (detail : log_detail) : M unit :=
  emit (ConsoleError label detail).

(** The request built from the decoded image and the instructions. *)
Definition claid_request (imageBuffer : Buffer) (instructions : json) : request :=
  let formData :=
    [ {| part_name := "source_image";
         part_data := BufferValue imageBuffer;
         part_filename := Some "upload.png";
         part_contentType := Some "image/png" |};
      {| part_name := "instructions";
         part_data := StringValue (JSON_stringify instructions);
         part_filename := None;
         part_contentType := None |} ] in
  {| url := CLAID_API_BASE_URL;
     method := "POST";
     request_headers :=
       ("Authorization", "Claid-API-Key " ++ CLAID_API_KEY) :: FormData_getHeaders;
     request_body := formData |}.

(** What the handler makes of the upstream response: a failure is
    passed on with its status and text, a success is re-encoded as a
    data URL. *)
Definition relay (response : FetchResponse) : M HandlerResponse :=
  if negb (ok response) then
    errorBody <- lift (text response) ;;
    console_error "Claid.ai API Error:" (UpstreamFailure (status response) errorBody) ;;;
    ret (error_response (status response) ("Claid.ai API failed: " ++ errorBody))
  else
    resultBuffer <- lift (buffer response) ;;
    let resultMimeType := or_else (Headers_get response "content-type") "image/png" in
    let resultBase64 :=
      "data:" ++ resultMimeType ++ ";base64," ++ toString_base64 resultBuffer in
    ret {| statusCode := 200;
           headers := Some [("Content-Type", "application/json")];
           body := JSON_stringify (JObject [("imageData", JString resultBase64)]) |}.

(** The body of the [try] block.  An absent field, like the [pop] of an
    empty array, is [undefined], which is falsy: each [match] sends it
    where the negation test of the source sends a falsy value. *)
Definition try_block (event : HandlerEvent) : M HandlerResponse :=
  parsed <- lift (JSON_parse (or_else (event_body event) "{}")) ;;
  fields <- lift (destructure parsed) ;;
  match fields with
  | (Some imageBase64, Some instructions) =>
      if negb (truthy imageBase64) || negb (truthy instructions) then
        ret (error_response 400 "Missing imageBase64 or instructions in request body")
      else
        segments <- lift (call_split imageBase64 ";base64,") ;;
        match pop segments with
        | Some base64Data =>
            if String.eqb base64Data EmptyString then
              ret (error_response 400 "Invalid Base64 data")
            else
              let imageBuffer := Buffer_from_base64 base64Data in
              response <- fetch (claid_request imageBuffer instructions) ;;
              relay response
        | None =>
            ret (error_response 400 "Invalid Base64 data")
        end
  | _ =>
      ret (error_response 400 "Missing imageBase64 or instructions in request body")
  end.

(** The [catch] block. *)
Definition internal_error (error : exn) : M HandlerResponse :=
  console_error "Proxy Error:" (Thrown error) ;;;
  ret (error_response 500 "An internal error occurred in the proxy function.").

(** [handler]: the method check, then the [try] block under its
    [catch]. *)
Definition handler (event : HandlerEvent) : M HandlerResponse :=
  if negb (String.eqb (httpMethod event) "POST") then
    ret (error_response 405 "Method Not Allowed")
  else
    try_catch (try_block event) internal_error.

End Handler.

(** A request that passes every check of the handler: a POST whose body
    parses to a value with a truthy [instructions] field and a string
    [imageBase64] field that has the non-empty text [base64Data] after
    its last [;base64,] marker. *)
Definition accepted {platform : Platform}
  (event : HandlerEvent) (base64Data : string) (instructions : json) : Prop :=
  httpMethod event = "POST" /\
  exists parsed imageBase64,
    JSON_parse (or_else (event_body event) "{}") = Return parsed /\
    get parsed "imageBase64" = Some (JString imageBase64) /\
    get parsed "instructions" = Some instructions /\
    truthy instructions = true /\
    pop (split ";base64," imageBase64) = Some base64Data /\
    base64Data <> EmptyString.

(* ================================================================= *)
(** ** The browser side *)

(** The second and third part of the source are the services the
    application calls in the browser: one that talks to Claid.ai
    directly, and one that goes through the proxy function.  What the
    browser provides to them is a second platform. *)

(** A browser [File]: its name, its MIME type and its bytes. *)
Record File : Type := {
  file_name : string;
  file_type : string;
  file_content : Buffer
}.

(** What a promise is rejected with: something the platform threw, the
    error event of a [FileReader], or [new Error(message)]. *)
Inductive rejection : Type :=
| Raised (e : exn)
| ReaderError
| JsError (message : string).

Inductive outcome (A : Type) : Type :=
| Resolved (a : A)
| Rejected (r : rejection).
Arguments Resolved {A} a.
Arguments Rejected {A} r.

Definition of_completion {A : Type} (c : completion A) : outcome A :=
  match c with
  | Return a => Resolved a
  | Throw e => Rejected (Raised e)
  end.

(** A [Blob] read from a response: its type, and what reading it as
    text and as a data URL gives. *)
Record Blob : Type := {
  blob_type : string;
  blob_text : outcome string;
  blob_dataURL : outcome string
}.

(** A browser [Response]: the status, what awaiting [json()] gives,
    what awaiting [text()] gives once [json()] has rejected, and what
    awaiting [blob()] gives. *)
Record Response : Type := {
  response_status : Z;
  response_json : outcome json;
  response_text : outcome string;
  response_blob : outcome Blob
}.

(** [response.ok] *)
Definition response_ok (r : Response) : bool :=
  (200 <=? response_status r)%Z && (response_status r <? 300)%Z.

(** The body of a browser request: JSON text, or a form with a file and
    text fields. *)
Inductive browser_body : Type :=
| JsonText (s : string)
| FormBody (fields : list (string * (File + string))).

(** The arguments of one [fetch] in the browser. *)
Record browser_request : Type := {
  endpoint : string;
  http_method : string;
  http_headers : list (string * string);
  http_body : browser_body
}.

Inductive console_detail : Type :=
| NoDetail
| Payload (payload : json)
| Failure (status : Z) (body : json)
| Response_text (s : string).

Inductive browser_effect : Type :=
| BrowserFetch (req : browser_request)
| ConsoleLog (label : string) (detail : console_detail)
| BrowserConsoleError (label : string) (detail : console_detail).

(** A promise in the browser: the effects so far, and how it settles. *)
Definition Promise (A : Type) : Type := (list browser_effect * outcome A)%type.

Definition resolve {A : Type} (a : A) : Promise A := ([], Resolved a).

Definition reject {A : Type} (r : rejection) : Promise A := ([], Rejected r).

Definition await {A : Type} (o : outcome A) : Promise A := ([], o).

Definition andThen {A B : Type} (m : Promise A) (k : A -> Promise B) : Promise B :=
  match m with
  | (t, Resolved a) => let (t', r) := k a in ((t ++ t')%list, r)
  | (t, Rejected r) => (t, Rejected r)
  end.

Definition perform (e : browser_effect) : Promise unit := ([e], Resolved tt).

Notation "x <~ m ;; k" := (andThen m (fun x => k))
  (at level 61, m at next level, right associativity).
Notation "m ~;; k" := (andThen m (fun _ => k))
  (at level 61, right associativity).

(** The requests a browser trace sent. *)
Fixpoint browser_fetches (t : list browser_effect) : list browser_request :=
  match t with
  | [] => []
  | BrowserFetch req :: rest => req :: browser_fetches rest
  | _ :: rest => browser_fetches rest
  end.

(** What the browser leaves open: what a [FileReader] makes of a file,
    how a number is written as a string, and the outcome of
    [await fetch(...)]. *)
Class Browser : Type := {
  readAsDataURL : File -> outcome string;
  Number_toString : float -> string;
  respond : browser_request -> outcome Response
}.

Definition PROXY_ENDPOINT : string := "/.netlify/functions/claid-proxy".

Section Services.

Context {platform : Platform} {browser : Browser}.

(** [`${v}`]: the string a template literal makes of a value. *)
Fixpoint ToString (v : json) : string :=
  match v with
  | JNull => "null"
  | JBool true => "true"
  | JBool false => "false"
  | JNumber x => Number_toString x
  | JString s => s
  | JArray items =>
      String.concat ","
        (map (fun item => match item with JNull => EmptyString | _ => ToString item end)
             items)
  | JObject _ => "[object Object]"
  end.

(** [typeof v === 'object'] *)
Definition typeof_object (v : json) : bool :=
  match v with
  | JNull | JArray _ | JObject _ => true
  | _ => false
  end.

(** [await fetch(url, init)] in the browser. *)
Definition browser_fetch (req : browser_request) : Promise Response :=
  perform (BrowserFetch req) ~;; await (respond req).

(** [try { errorBody = await response.json() } catch (e) { errorBody =
    await response.text() }]: the text comes back as a string value. *)
Definition read_error_body (response : Response) : Promise json :=
  match response_json response with
  | Resolved v => resolve v
  | Rejected _ =>
      s <~ await (response_text response) ;; resolve (JString s)
  end.

(** The message both services make of an error body: the property
    [key] of an object when it is truthy, the JSON text of the body
    otherwise.  An absent property is [undefined], which is falsy. *)
Definition error_message (key : string) (errorBody : json) : string :=
  match get errorBody key with
  | Some v =>
      if typeof_object errorBody && truthy v then ToString v
      else JSON_stringify errorBody
  | None => JSON_stringify errorBody
  end.

(** *** The service behind the proxy *)

(** [fileToBase64] *)
Definition fileToBase64 (file : File) : Promise string :=
  await (readAsDataURL file).

(** The request [callClaidApiProxy] sends. *)
Definition proxy_request (imageBase64 : string) (payload : json) : browser_request :=
  {| endpoint := PROXY_ENDPOINT;
     http_method := "POST";
     http_headers := [("Content-Type", "application/json")];
     http_body :=
       JsonText (JSON_stringify
                   (JObject [("imageBase64", JString imageBase64);
                             ("instructions", payload)])) |}.

(** [result.imageData]: reading a property of [null] throws. *)
Definition get_imageData (result : json) : outcome (option json) :=
  match result with
  | JNull => Rejected (Raised (TypeError "Cannot read properties of null (reading 'imageData')"))
  | _ => Resolved (get result "imageData")
  end.

(** The complaint about a body without image data. *)
Definition no_image_data : Promise json :=
  perform (BrowserConsoleError
             "API Error: The proxy did not return valid image data." NoDetail) ~;;
  reject (JsError
    "The API did not return a valid image. Please check the API key and prompt.").

(** What [callClaidApiProxy] makes of the answer of the proxy: a
    failure becomes an [Error] with its message, a success gives the
    [imageData] of the body when it is truthy.  An absent [imageData]
    is [undefined], which is falsy. *)
Definition proxy_reply (response : Response) : Promise json :=
  if negb (response_ok response) then
    errorBody <~ read_error_body response ;;
    perform (BrowserConsoleError "API Proxy Error:"
               (Failure (response_status response) errorBody)) ~;;
    let errorMessage := error_message "error" errorBody in
    reject (JsError ("The AI service returned an error. " ++ errorMessage))
  else
    result <~ await (response_json response) ;;
    imageData <~ await (get_imageData result) ;;
    match imageData with
    | Some imageData =>
        if negb (truthy imageData) then no_image_data else resolve imageData
    | None => no_image_data
    end.

(** [callClaidApiProxy] *)
Definition callClaidApiProxy (imageFile : File) (payload : json) : Promise json :=
  imageBase64 <~ fileToBase64 imageFile ;;
  response <~ browser_fetch (proxy_request imageBase64 payload) ;;
  proxy_reply response.

(** The instructions of the three operations. *)
Definition edit_payload (userPrompt : string) (x y : float) : json :=
  JObject [("operation", JString "generative_edit");
           ("prompt", JString userPrompt);
           ("focus_point", JObject [("x", JNumber x); ("y", JNumber y)])].

Definition filter_payload (filterPrompt : string) : json :=
  JObject [("operation", JString "generative_filter"); ("prompt", JString filterPrompt)].

Definition adjustment_payload (adjustmentPrompt : string) : json :=
  JObject [("operation", JString "generative_adjustment");
           ("prompt", JString adjustmentPrompt)].

(** [generateEditedImage], [generateFilteredImage] and
    [generateAdjustedImage] of the service behind the proxy. *)
Definition generateEditedImage (originalImage : File) (userPrompt : string)
  (x y : float) : Promise json :=
  callClaidApiProxy originalImage (edit_payload userPrompt x y).

Definition generateFilteredImage (originalImage : File) (filterPrompt : string)
  : Promise json :=
  callClaidApiProxy originalImage (filter_payload filterPrompt).

Definition generateAdjustedImage (originalImage : File) (adjustmentPrompt : string)
  : Promise json :=
  callClaidApiProxy originalImage (adjustment_payload adjustmentPrompt).

(** *** The service that calls Claid.ai from the browser *)

(** The request [callClaidApi] sends.  The key and the URL are the
    constants of the proxy function, declared again with the same
    values. *)
Definition direct_request (imageFile : File) (payload : json) : browser_request :=
  {| endpoint := CLAID_API_BASE_URL;
     http_method := "POST";
     http_headers := [("Authorization", "Claid-API-Key " ++ CLAID_API_KEY)];
     http_body :=
       FormBody [("source_image", inl imageFile);
                 ("instructions", inr (JSON_stringify payload))] |}.

(** What [callClaidApi] makes of the answer of Claid.ai: a failure
    becomes an [Error] with its message, a success must be an image and
    is read as a data URL. *)
Definition direct_reply (response : Response) : Promise string :=
  if negb (response_ok response) then
    errorBody <~ read_error_body response ;;
    perform (BrowserConsoleError "Claid.ai API Error:"
               (Failure (response_status response) errorBody)) ~;;
    let errorMessage := error_message "message" errorBody in
    reject (JsError
      ("The AI service returned an error. Please check your API key and prompt. Details: "
         ++ errorMessage))
  else
    imageBlob <~ await (response_blob response) ;;
    if negb (startsWith "image/" (blob_type imageBlob)) then
      errorText <~ await (blob_text imageBlob) ;;
      perform (BrowserConsoleError
                 "API Error: The server did not return a valid image. Response:"
                 (Response_text errorText)) ~;;
      reject (JsError
        "The API did not return a valid image. Please check the API key and prompt.")
    else
      await (blob_dataURL imageBlob).

(** [callClaidApi] *)
Definition callClaidApi (imageFile : File) (payload : json) : Promise string :=
  perform (ConsoleLog "Sending request to Claid.ai with payload:" (Payload payload)) ~;;
  response <~ browser_fetch (direct_request imageFile payload) ;;
  direct_reply response.

(** [generateEditedImage], [generateFilteredImage] and
    [generateAdjustedImage] of the direct service. *)
Definition direct_generateEditedImage (originalImage : File) (userPrompt : string)
  (x y : float) : Promise string :=
  callClaidApi originalImage (edit_payload userPrompt x y).

Definition direct_generateFilteredImage (originalImage : File) (filterPrompt : string)
  : Promise string :=
  callClaidApi originalImage (filter_payload filterPrompt).

Definition direct_generateAdjustedImage (originalImage : File) (adjustmentPrompt : string)
  : Promise string :=
  callClaidApi originalImage (adjustment_payload adjustmentPrompt).

(** *** The proxy function as the browser reaches it *)

(** The event Netlify hands to the function for a request with a text
    body. *)
Definition netlify_event (method text : string) : HandlerEvent :=
  {| httpMethod := method; event_body := Some text |}.

(** The response the browser gets for the answer of the function: its
    status is [statusCode] and its body is [body], so that [json()]
    parses [body]. *)
Definition delivers (r : HandlerResponse) (response : Response) : Prop :=
  response_status response = statusCode r /\
  response_json response = of_completion (JSON_parse (body r)).

End Services.

(* ================================================================= *)
(** ** A stub platform

    In the manner of a unit test's mocks: [JSON.parse] answers from a
    table of the request bodies in use and throws on any other text,
    [JSON.stringify] writes objects, arrays, strings, booleans and
    [null] as JSON text (no example holds a number; one is written as
    [0]), and the upstream server is a function handed in. *)

Definition dquote : string := String (ascii_of_nat 34) EmptyString.

(** [s] between double quotes; quotes and backslashes are escaped. *)
Fixpoint escape (s : string) : string :=
  match s with
  | EmptyString => EmptyString
  | String c rest =>
      if Ascii.eqb c (ascii_of_nat 34) || Ascii.eqb c (ascii_of_nat 92)
      then String (ascii_of_nat 92) (String c (escape rest))
      else String c (escape rest)
  end.

Definition quoted (s : string) : string := dquote ++ escape s ++ dquote.

Fixpoint render (v : json) : string :=
  match v with
  | JNull => "null"
  | JBool true => "true"
  | JBool false => "false"
  | JNumber _ => "0"
  | JString s => quoted s
  | JArray items =>
      "[" ++ (fix elements (l : list json) : string :=
                match l with
                | [] => EmptyString
                | [x] => render x
                | x :: r => render x ++ "," ++ elements r
                end) items ++ "]"
  | JObject props =>
      "{" ++ (fix members (l : list (string * json)) : string :=
                match l with
                | [] => EmptyString
                | [(k, x)] => quoted k ++ ":" ++ render x
                | (k, x) :: r => quoted k ++ ":" ++ render x ++ "," ++ members r
                end) props ++ "}"
  end.

Fixpoint lookup_body (s : string) (bodies : list (string * json)) : completion json :=
  match bodies with
  | [] => Throw (SyntaxError "Unexpected token in JSON")
  | (s', v) :: rest => if String.eqb s s' then Return v else lookup_body s rest
  end.

Definition stub (bodies : list (string * json))
  (server : request -> completion FetchResponse) : Platform :=
  {| JSON_parse := fun s => lookup_body s (("{}", JObject []) :: ("null", JNull) :: bodies);
     JSON_stringify := render;
     boundary := "--------------------------000000000000000000000000";
     upstream := server |}.

(** A server that answers every request with the same status, headers
    and body. *)
Definition constant_server (code : Z) (hs : list (string * string)) (payload : Buffer)
  : request -> completion FetchResponse :=
  fun _ =>
    Return {| status := code;
              response_headers := hs;
              text := Return (string_of_list_byte payload);
              buffer := Return payload |}.

(** A server that sends the uploaded image back unchanged. *)
Definition echo_server : request -> completion FetchResponse :=
  fun req =>
    match request_body req with
    | {| part_data := BufferValue image |} :: _ =>
        constant_server 200 [("Content-Type", "image/png")] image req
    | _ =>
        constant_server 422 [] (list_byte_of_string "no image") req
    end.

(** A network that is down. *)
Definition unreachable_server : request -> completion FetchResponse :=
  fun _ => Throw (FetchError "request to https://api.claid.ai/v1/image-processing failed").

Definition sepia : json :=
  JObject [("operation", JString "generative_filter"); ("prompt", JString "sepia")].

(** The JSON text of [{ imageBase64: image, instructions: sepia }]. *)
Definition sepia_body (image : string) : string :=
  "{" ++ quoted "imageBase64" ++ ":" ++ quoted image ++ ","
      ++ quoted "instructions" ++ ":" ++ render sepia ++ "}".

Definition sepia_request (image : string) : string * json :=
  (sepia_body image, JObject [("imageBase64", JString image); ("instructions", sepia)]).

Definition post (text : string) : HandlerEvent :=
  {| httpMethod := "POST"; event_body := Some text |}.

Definition sepia_event (image : string) : HandlerEvent := post (sepia_body image).

(** A platform that knows the body of [sepia_event image]. *)
Definition sepia_platform (image : string)
  (server : request -> completion FetchResponse) : Platform :=
  stub [sepia_request image] server.

(** The JSON text of [{ imageBase64: image, instructions: 0 }]. *)
Definition zero_body (image : string) : string :=
  "{" ++ quoted "imageBase64" ++ ":" ++ quoted image ++ ","
      ++ quoted "instructions" ++ ":0}".

Definition zero_request (image : string) : string * json :=
  (zero_body image,
   JObject [("imageBase64", JString image); ("instructions", JNumber 0)]).

(** A [JSON.parse] that rejects every text. *)
Definition reject_all : string -> completion json :=
  fun _ => Throw (SyntaxError "Unexpected token in JSON").

(** A [FileReader] that writes the data URL of a file. *)
Definition data_url_reader : File -> outcome string :=
  fun file =>
    Resolved ("data:" ++ file_type file ++ ";base64," ++ toString_base64 (file_content file)).

Definition stub_browser (server : browser_request -> outcome Response) : Browser :=
  {| readAsDataURL := data_url_reader;
     Number_toString := fun _ => "0";
     respond := server |}.

(** A response with a status and a JSON reading of its body. *)
Definition json_response (code : Z) (reading : outcome json) : Response :=
  {| response_status := code;
     response_json := reading;
     response_text := Rejected (Raised (TypeError "body stream already read"));
     response_blob := Rejected (Raised (TypeError "body stream already read")) |}.

(** A response with a status and a blob. *)
Definition blob_response (code : Z) (blob : Blob) : Response :=
  {| response_status := code;
     response_json := Rejected (Raised (SyntaxError "Unexpected token in JSON"));
     response_text := Rejected (Raised (TypeError "body stream already read"));
     response_blob := Resolved blob |}.

(** A server that answers the requests with a JSON text by running the
    proxy function on them. *)
Definition netlify (platform : Platform) : browser_request -> outcome Response :=
  fun req =>
    match http_body req with
    | JsonText text =>
        match snd (@handler platform (netlify_event (http_method req) text)) with
        | Return r =>
            Resolved (json_response (statusCode r)
                        (of_completion (@JSON_parse platform (body r))))
        | Throw e => Rejected (Raised e)
        end
    | FormBody _ => Rejected (Raised (FetchError "not a request for the proxy"))
    end.

(** A platform whose [JSON.parse] reads back the texts [render] writes
    for the given values. *)
Definition reading_back (values : list json)
  (server : request -> completion FetchResponse) : Platform :=
  stub (map (fun v => (render v, v)) values) server.

Definition photo : File :=
  {| file_name := "photo.png"; file_type := "image/png"; file_content := [x00; x00; x00] |}.

(** The body [callClaidApiProxy] sends for [photo] and [sepia]. *)
Definition photo_envelope : json :=
  JObject [("imageBase64", JString "data:image/png;base64,AAAA"); ("instructions", sepia)].

(* ================================================================= *)
(** * Properties *)

(** ** The platform functions on examples *)

Example split_data_url :
  split ";base64," "data:image/png;base64,AAAA" = ["data:image/png"; "AAAA"].
Proof. reflexivity. Qed.

Example split_no_marker : split ";base64," "AAAA" = ["AAAA"].
Proof. reflexivity. Qed.

Example split_twice : split "aa" "baaaaac" = ["b"; ""; "ac"].
Proof. reflexivity. Qed.

Example encode_dead : toString_base64 [xde; xad] = "3q0=".
Proof. reflexivity. Qed.

Example decode_AAAA : Buffer_from_base64 "AAAA" = [x00; x00; x00].
Proof. reflexivity. Qed.

Example decode_lenient : Buffer_from_base64 "3 q-=zz" = [xde; xaf].
Proof. reflexivity. Qed.

Example pop_empty : pop (@nil string) = None.
Proof. reflexivity. Qed.

Example header_name_case :
  Headers_get {| status := 200;
                 response_headers := [("Content-Length", "2"); ("Content-Type", "image/jpeg")];
                 text := Return EmptyString;
                 buffer := Return [] |} "content-type" = Some "image/jpeg".
Proof. reflexivity. Qed.

(** ** Splitting at the marker *)

Lemma append_empty_r (s : string) : s ++ EmptyString = s.
Proof. induction s as [|c s IH]; simpl; [reflexivity | now rewrite IH]. Qed.

Lemma append_assoc (a b c : string) : (a ++ b) ++ c = a ++ (b ++ c).
Proof. induction a as [|x a IH]; simpl; [reflexivity | now rewrite IH]. Qed.

Lemma split_from_not_nil (sep : string) (s : string) :
  forall skip cur, split_from sep skip cur s <> [].
Proof.
  induction s as [|c s IH]; intros skip cur; simpl.
  - discriminate.
  - destruct skip as [|k]; [|apply IH].
    destruct (startsWith sep (String c s)); [discriminate | apply IH].
Qed.

Lemma pop_cons {A : Type} (x : A) (l : list A) : l <> [] -> pop (x :: l) = pop l.
Proof. destruct l; [congruence | reflexivity]. Qed.

(** A string without an occurrence of the separator is one segment. *)
Lemma split_from_no_occurrence (sep : string) (s : string) :
  forall cur, includes sep s = false -> split_from sep 0 cur s = [cur ++ s].
Proof.
  induction s as [|c s IH]; intros cur H; simpl.
  - now rewrite append_empty_r.
  - simpl in H. apply orb_false_elim in H as [H1 H2].
    simpl in H1. rewrite H1. rewrite (IH _ H2), append_assoc. reflexivity.
Qed.

Lemma split_no_occurrence (sep s : string) :
  sep <> EmptyString -> includes sep s = false -> split sep s = [s].
Proof.
  intros Hsep H. destruct sep as [|a sep]; [congruence|].
  unfold split. now rewrite split_from_no_occurrence.
Qed.

Lemma startsWith_first (a : ascii) (p s : string) :
  startsWith (String a p) s = true -> startsWith (String a EmptyString) s = true.
Proof.
  destruct s as [|b s]; simpl; [discriminate|].
  destruct (Ascii.eqb a b); [reflexivity | discriminate].
Qed.

(** A string without the first character of the separator has no
    occurrence of the separator. *)
Lemma includes_first (a : ascii) (p s : string) :
  includes (String a EmptyString) s = false -> includes (String a p) s = false.
Proof.
  induction s as [|b s IH]; intros H.
  - reflexivity.
  - cbn [includes] in *. apply orb_false_elim in H as [H1 H2].
    rewrite (IH H2), orb_false_r.
    destruct (startsWith (String a p) (String b s)) eqn:E; [|reflexivity].
    apply startsWith_first in E. congruence.
Qed.

(** The marker has no border: an occurrence that starts before the end
    of [p] in [p ++ ";base64," ++ t] ends before the end of [p]. *)
Lemma marker_inside (c : ascii) (p t : string) :
  startsWith ";base64," (String c (p ++ ";base64," ++ t)) = true ->
  (7 <= String.length p)%nat.
Proof.
  intros H.
  do 7 (destruct p as [|? p]; [exfalso; simpl in H;
    repeat match type of H with
           | (if ?b then _ else _) = true => destruct b; try discriminate
           end|]).
  simpl. lia.
Qed.

Lemma split_from_marker (t : string) (p : string) :
  includes ";" t = false ->
  forall skip cur, (skip <= String.length p)%nat ->
    pop (split_from ";base64," skip cur (p ++ ";base64," ++ t)) = Some t.
Proof.
  intros Ht. induction p as [|c p IH]; intros skip cur Hskip.
  - assert (skip = 0%nat) by (simpl in Hskip; lia). subst skip.
    change (pop (cur :: split_from ";base64," 0 EmptyString t) = Some t).
    rewrite pop_cons by apply split_from_not_nil.
    rewrite split_from_no_occurrence by now apply includes_first.
    reflexivity.
  - pose proof (marker_inside c p t) as Hin.
    remember (";base64," ++ t) as rest eqn:Hrest.
    change (String c p ++ rest) with (String c (p ++ rest)).
    cbn [split_from]. destruct skip as [|k].
    + destruct (startsWith ";base64," (String c (p ++ rest))).
      * rewrite pop_cons by apply split_from_not_nil.
        apply IH. specialize (Hin eq_refl). simpl. lia.
      * apply IH. lia.
    + apply IH. simpl in Hskip. lia.
Qed.

(** The text after the last marker of [p ++ ";base64," ++ t], when [t]
    holds no semicolon, is [t]. *)
Lemma pop_split_marker (p t : string) :
  includes ";" t = false ->
  pop (split ";base64," (p ++ ";base64," ++ t)) = Some t.
Proof.
  intros Ht. unfold split. apply split_from_marker; [assumption | lia].
Qed.

Lemma startsWith_refl (s : string) : startsWith s s = true.
Proof. induction s as [|c s IH]; simpl; [reflexivity | now rewrite Ascii.eqb_refl]. Qed.

Lemma startsWith_append (p s : string) : startsWith p (p ++ s) = true.
Proof. induction p as [|c p IH]; simpl; [reflexivity | now rewrite Ascii.eqb_refl]. Qed.

Lemma includes_append (p s : string) : includes s (p ++ s) = true.
Proof.
  induction p as [|c p IH]; simpl.
  - destruct s; simpl; [reflexivity|]. now rewrite Ascii.eqb_refl, startsWith_refl.
  - rewrite IH. apply orb_true_r.
Qed.


(** ** Bytes *)

Lemma all_bytes_complete (b : byte) : In b all_bytes.
Proof.
  apply nth_error_In with (n := N.to_nat (Byte.to_N b)).
  destruct b; vm_compute; reflexivity.
Qed.

Lemma forall_bytes (f : byte -> bool) :
  forallb f all_bytes = true -> forall a, f a = true.
Proof.
  intros H a. rewrite forallb_forall in H. apply H, all_bytes_complete.
Qed.

Lemma forall_bytes2 (f : byte -> byte -> bool) :
  forallb (fun a => forallb (f a) all_bytes) all_bytes = true ->
  forall a b, f a b = true.
Proof.
  intros H a b. apply forall_bytes with (f := f a).
  apply (forall_bytes (fun a => forallb (f a) all_bytes) H).
Qed.

Lemma Buffer_eqb_eq (x y : Buffer) : Buffer_eqb x y = true -> x = y.
Proof.
  revert y. induction x as [|a x IH]; intros [|b y] H; simpl in H;
    try discriminate; [reflexivity|].
  apply andb_prop in H as [H1 H2].
  apply Byte.byte_dec_bl in H1. rewrite (IH _ H2), H1. reflexivity.
Qed.

Lemma unbase64_table (n : Z) : (0 <= n < 64)%Z -> unbase64 (table n) = n.
Proof.
  intros H. rewrite <- (Z2Nat.id n) by lia.
  assert (Hk : (Z.to_nat n < 64)%nat) by lia.
  generalize dependent (Z.to_nat n). intros k Hk.
  do 64 (destruct k as [|k]; [reflexivity|]). lia.
Qed.

Lemma table_not_semicolon (n : Z) : Ascii.eqb ";" (table n) = false.
Proof.
  unfold table. generalize (Z.to_nat n). intros k.
  do 64 (destruct k as [|k]; [reflexivity|]). reflexivity.
Qed.

(** ** The Base64 codec *)

(** A statement over one or two bytes, checked on each of them. *)
Ltac by_bytes :=
  first [ apply forall_bytes2 | apply forall_bytes ]; vm_compute; reflexivity.

Lemma decode_pos0 (s : string) (h : Z) : decode_from 0 h s = decode_from 0 0 s.
Proof.
  induction s as [|c s IH]; [reflexivity|].
  cbn [decode_from]. destruct (0 <=? unbase64 c)%Z; [reflexivity|].
  destruct (Ascii.eqb c "="); [reflexivity | exact IH].
Qed.

Lemma roundtrip1 : forall a, Buffer_eqb (Buffer_from_base64 (toString_base64 [a])) [a] = true.
Proof. by_bytes. Qed.

Lemma roundtrip2 :
  forall a b, Buffer_eqb (Buffer_from_base64 (toString_base64 [a; b])) [a; b] = true.
Proof. by_bytes. Qed.


Local Abbreviation sextet0 a := (Z.shiftr (byte_to_Z a) 2).
Local Abbreviation sextet1 a b :=
  (Z.lor (Z.shiftl (Z.land (byte_to_Z a) 3) 4) (Z.shiftr (byte_to_Z b) 4)).
Local Abbreviation sextet2 b c :=
  (Z.lor (Z.shiftl (Z.land (byte_to_Z b) 15) 2) (Z.shiftr (byte_to_Z c) 6)).
Local Abbreviation sextet3 c := (Z.land (byte_to_Z c) 63).
Local Abbreviation in_range n := ((0 <=? n)%Z && (n <? 64)%Z).

Lemma sextet0_range : forall a, in_range (sextet0 a) = true.
Proof. by_bytes. Qed.

Lemma sextet1_range : forall a b, in_range (sextet1 a b) = true.
Proof. by_bytes. Qed.

Lemma sextet2_range : forall b c, in_range (sextet2 b c) = true.
Proof. by_bytes. Qed.

Lemma sextet3_range : forall c, in_range (sextet3 c) = true.
Proof. by_bytes. Qed.

Lemma first_byte : forall a b,
  Byte.eqb (byte_of_Z (Z.lor (Z.shiftl (Z.land (sextet0 a) 63) 2)
                             (Z.shiftr (Z.land (sextet1 a b) 48) 4))) a = true.
Proof. by_bytes. Qed.

Lemma second_byte_high : forall a b,
  (Z.land (sextet1 a b) 15 =? Z.shiftr (byte_to_Z b) 4)%Z = true.
Proof. by_bytes. Qed.

Lemma second_byte_low : forall b c,
  (Z.shiftr (Z.land (sextet2 b c) 60) 2 =? Z.land (byte_to_Z b) 15)%Z = true.
Proof. by_bytes. Qed.

Lemma second_byte : forall b,
  Byte.eqb (byte_of_Z (Z.lor (Z.shiftl (Z.shiftr (byte_to_Z b) 4) 4)
                             (Z.land (byte_to_Z b) 15))) b = true.
Proof. by_bytes. Qed.

Lemma third_byte : forall b c,
  Byte.eqb (byte_of_Z (Z.lor (Z.shiftl (Z.land (sextet2 b c) 3) 6)
                             (Z.land (sextet3 c) 63))) c = true.
Proof. by_bytes. Qed.

Lemma legal_sextet (n : Z) :
  in_range n = true ->
  unbase64 (table n) = n /\ (0 <=? n)%Z = true.
Proof.
  intros H. apply andb_prop in H as [H1 H2]. split; [|exact H1].
  apply unbase64_table. lia.
Qed.

(** Four characters written for three bytes are read back as those
    three bytes. *)
Lemma decode_group (a b c : byte) (rest : string) (h : Z) :
  decode_from 0 h
    (String (table (sextet0 a)) (String (table (sextet1 a b))
    (String (table (sextet2 b c)) (String (table (sextet3 c)) rest))))
  = a :: b :: c :: decode_from 0 (sextet3 c) rest.
Proof.
  destruct (legal_sextet _ (sextet0_range a)) as [E0 P0].
  destruct (legal_sextet _ (sextet1_range a b)) as [E1 P1].
  destruct (legal_sextet _ (sextet2_range b c)) as [E2 P2].
  destruct (legal_sextet _ (sextet3_range c)) as [E3 P3].
  cbn [decode_from]. rewrite E0, P0, E1, P1, E2, P2, E3, P3.
  rewrite (Byte.byte_dec_bl _ _ (first_byte a b)).
  rewrite (proj1 (Z.eqb_eq _ _) (second_byte_high a b)).
  rewrite (proj1 (Z.eqb_eq _ _) (second_byte_low b c)).
  rewrite (Byte.byte_dec_bl _ _ (second_byte b)).
  rewrite (Byte.byte_dec_bl _ _ (third_byte b c)).
  reflexivity.
Qed.

Lemma list_ind3 {A : Type} (P : list A -> Prop) :
  P [] -> (forall a, P [a]) -> (forall a b, P [a; b]) ->
  (forall a b c l, P l -> P (a :: b :: c :: l)) ->
  forall l, P l.
Proof.
  intros H0 H1 H2 H3 l.
  enough (P l /\ (forall a, P (a :: l)) /\ (forall a b, P (a :: b :: l))) by tauto.
  induction l as [|x l (IH0 & IH1 & IH2)]; repeat split; auto.
Qed.

(** Decoding what [toString('base64')] wrote gives the buffer back. *)
Lemma base64_roundtrip (B : Buffer) :
  Buffer_from_base64 (toString_base64 B) = B.
Proof.
  unfold Buffer_from_base64. generalize 0%Z as h. 
  induction B as [|a|a b|a b c B IH] using list_ind3; intros h.
  - reflexivity.
  - rewrite decode_pos0. apply Buffer_eqb_eq, roundtrip1.
  - rewrite decode_pos0. apply Buffer_eqb_eq, roundtrip2.
  - cbn [toString_base64]. cbv zeta. rewrite decode_group, IH. reflexivity.
Qed.

Lemma base64_no_semicolon (B : Buffer) : includes ";" (toString_base64 B) = false.
Proof.
  induction B as [|a|a b|a b c B IH] using list_ind3;
    cbn [toString_base64 includes startsWith]; cbv zeta;
    rewrite ?table_not_semicolon, ?IH; reflexivity.
Qed.

Lemma base64_not_empty (B : Buffer) : B <> [] -> toString_base64 B <> EmptyString.
Proof.
  destruct B as [|a [|b [|c B]]]; [congruence | discriminate ..].
Qed.

(* ================================================================= *)
(** ** The handler *)

Section HandlerProperties.

Context {platform : Platform}.

Lemma bind_return {A B : Type} (a : A) (k : A -> M B) :
  bind (lift (Return a)) k = k a.
Proof. unfold bind, lift. destruct (k a). reflexivity. Qed.

Lemma handler_post (event : HandlerEvent) :
  httpMethod event = "POST" ->
  handler event = try_catch (try_block event) internal_error.
Proof. intros H. unfold handler. rewrite H. reflexivity. Qed.

(** A value with a property is not [null]. *)
Lemma destructure_defined (v : json) (k : string) (x : json) :
  get v k = Some x ->
  destructure v = Return (get v "imageBase64", get v "instructions").
Proof. destruct v; simpl; intros H; (discriminate || reflexivity). Qed.

(** An accepted request reaches the upstream call with the decoded
    image. *)
Lemma accepted_try_block (event : HandlerEvent) (base64Data : string) (instructions : json) :
  accepted event base64Data instructions ->
  try_block event =
    (response <- fetch (claid_request (Buffer_from_base64 base64Data) instructions) ;;
     relay response).
Proof.
  intros (_ & parsed & image & Hparse & Himage & Hins & Htruthy & Hpop & Hne).
  unfold try_block. rewrite Hparse, bind_return.
  rewrite (destructure_defined _ _ _ Himage), bind_return, Himage, Hins.
  assert (Himg : truthy (JString image) = true).
  { destruct image; [|reflexivity]. simpl in Hpop. congruence. }
  rewrite Himg, Htruthy. cbn [negb orb call_split]. rewrite bind_return, Hpop.
  destruct (String.eqb_spec base64Data EmptyString); [contradiction | reflexivity].
Qed.


(** Whatever the upstream call results in, it is made once. *)
Lemma accepted_sends_once (event : HandlerEvent) (base64Data : string) (instructions : json) :
  accepted event base64Data instructions ->
  fetches (fst (handler event)) =
    [claid_request (Buffer_from_base64 base64Data) instructions].
Proof.
  intros H. rewrite (handler_post _ (proj1 H)), (accepted_try_block _ _ _ H).
  unfold fetch, bind, emit, lift.
  destruct (upstream _) as [response|e]; [|reflexivity].
  unfold relay, bind, lift. destruct (negb (ok response)).
  - destruct (text response); reflexivity.
  - destruct (buffer response); reflexivity.
Qed.

(** An accepted request answered with a failure status. *)
Lemma accepted_failure (event : HandlerEvent) (base64Data : string) (instructions : json)
  (response : FetchResponse) (errorBody : string) :
  accepted event base64Data instructions ->
  upstream (claid_request (Buffer_from_base64 base64Data) instructions) = Return response ->
  ok response = false ->
  text response = Return errorBody ->
  handler event =
    ([Fetch (claid_request (Buffer_from_base64 base64Data) instructions);
      ConsoleError "Claid.ai API Error:" (UpstreamFailure (status response) errorBody)],
     Return (error_response (status response) ("Claid.ai API failed: " ++ errorBody))).
Proof.
  intros H Hup Hok Htext.
  rewrite (handler_post _ (proj1 H)), (accepted_try_block _ _ _ H).
  unfold fetch, bind, emit, lift. rewrite Hup.
  unfold relay, bind, lift. rewrite Hok, Htext. reflexivity.
Qed.

(** An accepted request answered with a success status. *)
Lemma accepted_success (event : HandlerEvent) (base64Data : string) (instructions : json)
  (response : FetchResponse) (resultBuffer : Buffer) :
  accepted event base64Data instructions ->
  upstream (claid_request (Buffer_from_base64 base64Data) instructions) = Return response ->
  ok response = true ->
  buffer response = Return resultBuffer ->
  handler event =
    ([Fetch (claid_request (Buffer_from_base64 base64Data) instructions)],
     Return {| statusCode := 200;
               headers := Some [("Content-Type", "application/json")];
               body := JSON_stringify (JObject [("imageData", JString
                 ("data:" ++ or_else (Headers_get response "content-type") "image/png"
                    ++ ";base64," ++ toString_base64 resultBuffer))]) |}).
Proof.
  intros H Hup Hok Hbuf.
  rewrite (handler_post _ (proj1 H)), (accepted_try_block _ _ _ H).
  unfold fetch, bind, emit, lift. rewrite Hup.
  unfold relay, bind, lift. rewrite Hok, Hbuf. reflexivity.
Qed.

(** ** Claims about the handler *)

(** C7.  A request whose method is not POST is answered with status 405
    and the body [{ error: "Method Not Allowed" }], with no effect at
    all.  The answer is the same for every request body and for every
    behaviour of [JSON.parse], one that throws on every text included:
    the body is neither parsed nor otherwise looked at. *)
Theorem method_not_allowed (method : string) :
  method <> "POST" ->
  forall (requestBody : option string) (parse : string -> completion json),
    @handler (with_JSON_parse platform parse)
      {| httpMethod := method; event_body := requestBody |}
    = ([], Return {| statusCode := 405;
                     headers := None;
                     body := JSON_stringify
                               (JObject [("error", JString "Method Not Allowed")]) |}).
Proof.
  intros Hmethod requestBody parse. unfold handler. cbn [httpMethod].
  destruct (String.eqb_spec method "POST") as [E|_]; [contradiction | reflexivity].
Qed.

(** A non-null value without one of the two fields. *)
Lemma absent_field (event : HandlerEvent) (parsed : json) :
  httpMethod event = "POST" ->
  JSON_parse (or_else (event_body event) "{}") = Return parsed ->
  parsed <> JNull ->
  get parsed "imageBase64" = None \/ get parsed "instructions" = None ->
  handler event =
    ([], Return (error_response 400 "Missing imageBase64 or instructions in request body")).
Proof.
  intros Hpost Hparse Hnull Hfield.
  rewrite (handler_post _ Hpost). unfold try_block.
  rewrite Hparse, bind_return.
  assert (E : destructure parsed =
              Return (get parsed "imageBase64", get parsed "instructions"))
    by (destruct parsed; [contradiction | reflexivity ..]).
  rewrite E, bind_return.
  destruct Hfield as [H|H]; rewrite H.
  - reflexivity.
  - destruct (get parsed "imageBase64"); reflexivity.
Qed.

(** The falsy values JSON can express. *)
Lemma falsy_values :
  truthy (JString "") = false /\ truthy (JNumber 0) = false /\
  truthy (JNumber (-0)) = false /\ truthy (JBool false) = false /\
  truthy JNull = false.
Proof. repeat split. Qed.

(** C10.  The presence check is a truthiness check: a POST body that
    parses to an object in which [imageBase64] or [instructions] is
    present with a falsy value is answered with status 400 and the
    "Missing imageBase64 or instructions in request body" error, and
    nothing is sent upstream.  It is the answer to every POST body in
    which one of the two fields is absent. *)
Theorem falsy_field_is_missing (event : HandlerEvent)
  (props : list (string * json)) (v : json) :
  httpMethod event = "POST" ->
  JSON_parse (or_else (event_body event) "{}") = Return (JObject props) ->
  own_property "imageBase64" props = Some v \/ own_property "instructions" props = Some v ->
  truthy v = false ->
  handler event =
    ([], Return {| statusCode := 400;
                   headers := None;
                   body := JSON_stringify (JObject [("error", JString
                     "Missing imageBase64 or instructions in request body")]) |}) /\
  (forall (event' : HandlerEvent) (props' : list (string * json)),
     httpMethod event' = "POST" ->
     JSON_parse (or_else (event_body event') "{}") = Return (JObject props') ->
     own_property "imageBase64" props' = None \/ own_property "instructions" props' = None ->
     handler event' = handler event).
Proof.
  intros Hpost Hparse Hfield Hfalsy.
  assert (E : handler event =
    ([], Return (error_response 400 "Missing imageBase64 or instructions in request body"))).
  { rewrite (handler_post _ Hpost). unfold try_block.
    rewrite Hparse, bind_return. cbn [destructure get]. rewrite bind_return.
    destruct Hfield as [H|H]; rewrite H.
    - destruct (own_property "instructions" props); [|reflexivity].
      rewrite Hfalsy. reflexivity.
    - destruct (own_property "imageBase64" props); [|reflexivity].
      rewrite Hfalsy, orb_true_r. reflexivity. }
  split; [exact E|].
  intros event' props' Hpost' Hparse' Habsent. rewrite E.
  apply (absent_field _ _ Hpost' Hparse'); [discriminate | exact Habsent].
Qed.

(** C6, amended.  A POST body that parses to a JSON value other than
    [null] and lacks the [imageBase64] field or the [instructions] field
    is answered with status 400 and the "Missing imageBase64 or
    instructions in request body" error, and nothing is sent
    upstream. *)
Theorem missing_field_is_bad_request (event : HandlerEvent) (parsed : json) :
  httpMethod event = "POST" ->
  JSON_parse (or_else (event_body event) "{}") = Return parsed ->
  parsed <> JNull ->
  get parsed "imageBase64" = None \/ get parsed "instructions" = None ->
  handler event =
    ([], Return {| statusCode := 400;
                   headers := None;
                   body := JSON_stringify (JObject [("error", JString
                     "Missing imageBase64 or instructions in request body")]) |}).
Proof. exact (absent_field event parsed). Qed.

(** C8.  On a POST request, whatever is thrown inside the [try] block
    is caught: the handler logs it and resolves to status 500 with the
    body [{ error: "An internal error occurred in the proxy function." }].
    This holds in particular for a body [JSON.parse] rejects, for a
    network failure of the upstream call and for a failure while the
    upstream body is read; and the handler always completes normally,
    it never throws to its caller. *)
Theorem thrown_is_internal_error (event : HandlerEvent) :
  httpMethod event = "POST" ->
  let failure :=
    {| statusCode := 500;
       headers := None;
       body := JSON_stringify (JObject [("error", JString
                 "An internal error occurred in the proxy function.")]) |} in
  (forall t e, try_block event = (t, Throw e) ->
     handler event = ((t ++ [ConsoleError "Proxy Error:" (Thrown e)])%list, Return failure)) /\
  (forall e, JSON_parse (or_else (event_body event) "{}") = Throw e ->
     handler event = ([ConsoleError "Proxy Error:" (Thrown e)], Return failure)) /\
  (forall base64Data instructions e,
     accepted event base64Data instructions ->
     upstream (claid_request (Buffer_from_base64 base64Data) instructions) = Throw e ->
     handler event =
       ([Fetch (claid_request (Buffer_from_base64 base64Data) instructions);
         ConsoleError "Proxy Error:" (Thrown e)], Return failure)) /\
  (forall base64Data instructions response e,
     accepted event base64Data instructions ->
     upstream (claid_request (Buffer_from_base64 base64Data) instructions)
       = Return response ->
     (ok response = false /\ text response = Throw e) \/
     (ok response = true /\ buffer response = Throw e) ->
     handler event =
       ([Fetch (claid_request (Buffer_from_base64 base64Data) instructions);
         ConsoleError "Proxy Error:" (Thrown e)], Return failure)) /\
  (exists t r, handler event = (t, Return r)).
Proof.
  intros Hpost failure. rewrite (handler_post _ Hpost).
  assert (Hcatch : forall t e, try_block event = (t, Throw e) ->
            try_catch (try_block event) internal_error =
              ((t ++ [ConsoleError "Proxy Error:" (Thrown e)])%list, Return failure)).
  { intros t e H. rewrite H. reflexivity. }
  repeat split.
  - exact Hcatch.
  - intros e H. apply (Hcatch []). unfold try_block. rewrite H. reflexivity.
  - intros base64Data instructions e Hacc H.
    apply (Hcatch [Fetch _]). rewrite (accepted_try_block _ _ _ Hacc).
    unfold fetch, bind, emit, lift. rewrite H. reflexivity.
  - intros base64Data instructions response e Hacc Hup Hread.
    apply (Hcatch [Fetch _]). rewrite (accepted_try_block _ _ _ Hacc).
    unfold fetch, bind, emit, lift. rewrite Hup. unfold relay, bind, lift.
    destruct Hread as [[Hok H]|[Hok H]]; rewrite Hok, H; reflexivity.
  - destruct (try_block event) as [t [r|e]] eqn:E.
    + exists t, r. reflexivity.
    + eexists _, _. apply (Hcatch t e). reflexivity.
Qed.


(** C1, amended.  On a POST request with truthy [imageBase64] and
    [instructions] fields, an [imageBase64] string that ends with the
    [;base64,] marker, so that nothing follows its last marker, is
    answered with status 400 and [{ error: "Invalid Base64 data" }], and
    nothing is sent upstream.  A non-empty string with no [;base64,]
    marker is not rejected: the whole string is decoded as the Base64
    payload and the upstream call is made. *)
Theorem empty_payload_is_invalid (event : HandlerEvent) (parsed : json)
  (imageBase64 : string) (instructions : json) :
  httpMethod event = "POST" ->
  JSON_parse (or_else (event_body event) "{}") = Return parsed ->
  get parsed "imageBase64" = Some (JString imageBase64) ->
  get parsed "instructions" = Some instructions ->
  truthy (JString imageBase64) = true ->
  truthy instructions = true ->
  (forall prefix, imageBase64 = prefix ++ ";base64," ->
     handler event =
       ([], Return {| statusCode := 400;
                      headers := None;
                      body := JSON_stringify
                                (JObject [("error", JString "Invalid Base64 data")]) |})) /\
  (includes ";base64," imageBase64 = false ->
     fetches (fst (handler event)) =
       [claid_request (Buffer_from_base64 imageBase64) instructions]).
Proof.
  intros Hpost Hparse Himage Hins Htruthy Htruthy'. split.
  - intros prefix ->.
    rewrite (handler_post _ Hpost). unfold try_block.
    rewrite Hparse, bind_return.
    rewrite (destructure_defined _ _ _ Himage), bind_return, Himage, Hins.
    rewrite Htruthy, Htruthy'. cbn [negb orb call_split]. rewrite bind_return.
    pose proof (pop_split_marker prefix EmptyString eq_refl) as Hpop.
    change (";base64," ++ EmptyString) with ";base64," in Hpop.
    rewrite Hpop. reflexivity.
  - intros Hnone. apply accepted_sends_once.
    split; [exact Hpost|]. exists parsed, imageBase64.
    repeat split; try assumption.
    + rewrite split_no_occurrence by (assumption || discriminate). reflexivity.
    + intros ->. discriminate.
Qed.

(** C9.  For an accepted request the handler sends exactly one request
    upstream: a POST to the fixed URL, with the [Authorization] header
    [Claid-API-Key] followed by the static key and the multipart header
    of the form encoder, whose form has the two fields [source_image]
    (the decoded image bytes, filename [upload.png], content type
    [image/png]) and [instructions] (the JSON text of the instructions
    value). *)
Theorem outbound_request (event : HandlerEvent) (base64Data : string) (instructions : json) :
  accepted event base64Data instructions ->
  fetches (fst (handler event)) =
    [ {| url := "https://api.claid.ai/v1/image-processing";
         method := "POST";
         request_headers :=
           [ ("Authorization", "Claid-API-Key b075a8d36b374209ac11df342fe68a73");
             ("content-type", "multipart/form-data; boundary=" ++ boundary) ];
         request_body :=
           [ {| part_name := "source_image";
                part_data := BufferValue (Buffer_from_base64 base64Data);
                part_filename := Some "upload.png";
                part_contentType := Some "image/png" |};
             {| part_name := "instructions";
                part_data := StringValue (JSON_stringify instructions);
                part_filename := None;
                part_contentType := None |} ] |} ].
Proof.
  intros H. rewrite (accepted_sends_once _ _ _ H). reflexivity.
Qed.

(** C4.  When the upstream answers an accepted request with a status
    outside 200..299 and the body text [errorBody], the handler resolves
    to that status with the body
    [{ error: "Claid.ai API failed: " + errorBody }], whose message
    contains [errorBody]; it has sent one request and logged the
    failure, and made no second attempt. *)
Theorem upstream_failure_is_passed_on (event : HandlerEvent) (base64Data : string)
  (instructions : json) (response : FetchResponse) (errorBody : string) :
  accepted event base64Data instructions ->
  upstream (claid_request (Buffer_from_base64 base64Data) instructions) = Return response ->
  (status response < 200 \/ 300 <= status response)%Z ->
  text response = Return errorBody ->
  handler event =
    ([Fetch (claid_request (Buffer_from_base64 base64Data) instructions);
      ConsoleError "Claid.ai API Error:" (UpstreamFailure (status response) errorBody)],
     Return {| statusCode := status response;
               headers := None;
               body := JSON_stringify (JObject [("error", JString
                         ("Claid.ai API failed: " ++ errorBody))]) |}) /\
  includes errorBody ("Claid.ai API failed: " ++ errorBody) = true.
Proof.
  intros H Hup Hstatus Htext. split.
  - apply (accepted_failure _ _ _ _ _ H Hup); [|exact Htext].
    unfold ok. destruct Hstatus; [rewrite (proj2 (Z.leb_gt _ _)) by lia; reflexivity|].
    rewrite (proj2 (Z.ltb_ge _ _)) by lia. apply andb_false_r.
  - apply includes_append.
Qed.

(** C3.  The body [{ imageBase64: "data:image/png;base64,AAAA",
    instructions: { operation: "generative_filter", prompt: "sepia" } }],
    answered upstream with status 200, content type [image/png] and the
    two bytes DE AD, is answered with status 200 and the body
    [{ imageData: "data:image/png;base64,3q0=" }]. *)
Theorem sepia_scenario (event : HandlerEvent) (response : FetchResponse) :
  httpMethod event = "POST" ->
  JSON_parse (or_else (event_body event) "{}") =
    Return (JObject [("imageBase64", JString "data:image/png;base64,AAAA");
                     ("instructions",
                      JObject [("operation", JString "generative_filter");
                               ("prompt", JString "sepia")])]) ->
  upstream (claid_request [x00; x00; x00]
              (JObject [("operation", JString "generative_filter");
                        ("prompt", JString "sepia")])) = Return response ->
  status response = 200%Z ->
  Headers_get response "content-type" = Some "image/png" ->
  buffer response = Return [xde; xad] ->
  handler event =
    ([Fetch (claid_request [x00; x00; x00]
               (JObject [("operation", JString "generative_filter");
                         ("prompt", JString "sepia")]))],
     Return {| statusCode := 200;
               headers := Some [("Content-Type", "application/json")];
               body := JSON_stringify
                         (JObject [("imageData", JString "data:image/png;base64,3q0=")]) |}).
Proof.
  intros Hpost Hparse Hup Hstatus Htype Hbuf.
  assert (H : accepted event "AAAA"
                (JObject [("operation", JString "generative_filter");
                          ("prompt", JString "sepia")])).
  { split; [exact Hpost|]. eexists _, _. split; [exact Hparse|].
    repeat split. discriminate. }
  rewrite (accepted_success _ _ _ _ [xde; xad] H Hup).
  - rewrite Htype. reflexivity.
  - unfold ok. rewrite Hstatus. reflexivity.
  - exact Hbuf.
Qed.


(** C2, amended.  For every non-empty buffer [B]: when [B], encoded in
    Base64 into a data URL, is the [imageBase64] of a POST body with
    truthy instructions, and the upstream answers with status 200 and
    the body [B], the handler resolves to status 200 with an
    [imageData] data URL whose text after the [;base64,] marker decodes
    to [B], byte for byte.  The request sent upstream carried [B]. *)
Theorem round_trip (event : HandlerEvent) (parsed : json) (mime : string)
  (B : Buffer) (instructions : json) (response : FetchResponse) :
  B <> [] ->
  httpMethod event = "POST" ->
  JSON_parse (or_else (event_body event) "{}") = Return parsed ->
  get parsed "imageBase64" =
    Some (JString ("data:" ++ mime ++ ";base64," ++ toString_base64 B)) ->
  get parsed "instructions" = Some instructions ->
  truthy instructions = true ->
  upstream (claid_request (Buffer_from_base64 (toString_base64 B)) instructions)
    = Return response ->
  status response = 200%Z ->
  buffer response = Return B ->
  exists imageData payload,
    handler event =
      ([Fetch (claid_request B instructions)],
       Return {| statusCode := 200;
                 headers := Some [("Content-Type", "application/json")];
                 body := JSON_stringify (JObject [("imageData", JString imageData)]) |}) /\
    pop (split ";base64," imageData) = Some payload /\
    Buffer_from_base64 payload = B.
Proof.
  intros HB Hpost Hparse Himage Hins Htruthy Hresponse Hstatus Hbuffer.
  assert (H : accepted event (toString_base64 B) instructions).
  { split; [exact Hpost|]. exists parsed, ("data:" ++ mime ++ ";base64," ++ toString_base64 B).
    repeat split; try assumption.
    - rewrite <- append_assoc. apply pop_split_marker, base64_no_semicolon.
    - now apply base64_not_empty. }
  exists ("data:" ++ or_else (Headers_get response "content-type") "image/png"
            ++ ";base64," ++ toString_base64 B), (toString_base64 B).
  repeat split.
  - rewrite (accepted_success _ _ _ _ B H Hresponse).
    + rewrite base64_roundtrip. reflexivity.
    + unfold ok. rewrite Hstatus. reflexivity.
    + exact Hbuffer.
  - rewrite <- append_assoc. apply pop_split_marker, base64_no_semicolon.
  - apply base64_roundtrip.
Qed.

(** C5, amended.  When the upstream answers an accepted request with a
    status in 200..299, the MIME type of the [imageData] data URL is the
    value of the response's [content-type] header when that header is
    present and not empty, and [image/png] when it is absent or empty;
    a [content-type] of [image/jpeg] gives a data URL that begins with
    [data:image/jpeg;base64,]. *)
Theorem result_mime_type (event : HandlerEvent) (base64Data : string)
  (instructions : json) (response : FetchResponse) (resultBuffer : Buffer) :
  accepted event base64Data instructions ->
  upstream (claid_request (Buffer_from_base64 base64Data) instructions) = Return response ->
  (200 <= status response < 300)%Z ->
  buffer response = Return resultBuffer ->
  exists resultMimeType,
    handler event =
      ([Fetch (claid_request (Buffer_from_base64 base64Data) instructions)],
       Return {| statusCode := 200;
                 headers := Some [("Content-Type", "application/json")];
                 body := JSON_stringify (JObject [("imageData", JString
                   ("data:" ++ resultMimeType ++ ";base64,"
                      ++ toString_base64 resultBuffer))]) |}) /\
    (forall value, Headers_get response "content-type" = Some value ->
       value <> EmptyString -> resultMimeType = value) /\
    (Headers_get response "content-type" = None -> resultMimeType = "image/png") /\
    (Headers_get response "content-type" = Some EmptyString ->
       resultMimeType = "image/png") /\
    (Headers_get response "content-type" = Some "image/jpeg" ->
       startsWith "data:image/jpeg;base64,"
         ("data:" ++ resultMimeType ++ ";base64," ++ toString_base64 resultBuffer) = true).
Proof.
  intros H Hup Hstatus Hbuf.
  exists (or_else (Headers_get response "content-type") "image/png").
  split; [|repeat split].
  - apply (accepted_success _ _ _ _ _ H Hup); [|exact Hbuf].
    unfold ok. rewrite (proj2 (Z.leb_le _ _)), (proj2 (Z.ltb_lt _ _)) by lia.
    reflexivity.
  - intros value -> Hvalue. simpl.
    destruct (String.eqb_spec value EmptyString); [contradiction | reflexivity].
  - intros ->. reflexivity.
  - intros ->. reflexivity.
  - intros ->. apply (startsWith_append "data:image/jpeg;base64,").
Qed.

End HandlerProperties.

(* ================================================================= *)
(** ** The handler at work *)

Lemma sepia_accepted (server : request -> completion FetchResponse) :
  @accepted (sepia_platform "data:image/png;base64,AAAA" server)
    (sepia_event "data:image/png;base64,AAAA") "AAAA" sepia.
Proof.
  split; [reflexivity|].
  exists (snd (sepia_request "data:image/png;base64,AAAA")), "data:image/png;base64,AAAA".
  repeat split. discriminate.
Qed.

Example sepia_text :
  @handler (sepia_platform "data:image/png;base64,AAAA"
              (constant_server 200 [("content-type", "image/png")] [xde; xad]))
    (sepia_event "data:image/png;base64,AAAA")
  = ([Fetch (@claid_request
               (sepia_platform "data:image/png;base64,AAAA"
                  (constant_server 200 [("content-type", "image/png")] [xde; xad]))
               [x00; x00; x00] sepia)],
     Return {| statusCode := 200;
               headers := Some [("Content-Type", "application/json")];
               body := "{" ++ quoted "imageData" ++ ":"
                           ++ quoted "data:image/png;base64,3q0=" ++ "}" |}).
Proof. reflexivity. Qed.

Example empty_body_is_missing_fields :
  @handler (stub [] unreachable_server) {| httpMethod := "POST"; event_body := None |}
  = ([], Return {| statusCode := 400;
                   headers := None;
                   body := "{" ++ quoted "error" ++ ":"
                     ++ quoted "Missing imageBase64 or instructions in request body"
                     ++ "}" |}).
Proof. reflexivity. Qed.

(** The input that refutes C1 as stated: [imageBase64] is ["AAAA"],
    truthy and without a [;base64,] marker, next to truthy
    instructions.  The handler does not answer 400 "Invalid Base64
    data": it decodes the whole string, sends the three zero bytes
    upstream and relays the answer with status 200. *)
Lemma no_marker_is_forwarded :
  httpMethod (sepia_event "AAAA") = "POST" /\
  @JSON_parse (sepia_platform "AAAA" echo_server)
    (or_else (event_body (sepia_event "AAAA")) "{}")
    = Return (JObject [("imageBase64", JString "AAAA"); ("instructions", sepia)]) /\
  truthy (JString "AAAA") = true /\
  truthy sepia = true /\
  includes ";base64," "AAAA" = false /\
  @handler (sepia_platform "AAAA" echo_server) (sepia_event "AAAA")
    = ([Fetch (@claid_request (sepia_platform "AAAA" echo_server) [x00; x00; x00] sepia)],
       Return {| statusCode := 200;
                 headers := Some [("Content-Type", "application/json")];
                 body := render (JObject [("imageData",
                                           JString "data:image/png;base64,AAAA")]) |}) /\
  @handler (sepia_platform "AAAA" echo_server) (sepia_event "AAAA")
    <> ([], Return (@error_response (sepia_platform "AAAA" echo_server)
                      400 "Invalid Base64 data")).
Proof. repeat split. discriminate. Qed.

Lemma empty_payload_is_invalid_witness :
  httpMethod (sepia_event "data:image/png;base64,") = "POST" /\
  @JSON_parse (sepia_platform "data:image/png;base64," echo_server)
    (or_else (event_body (sepia_event "data:image/png;base64,")) "{}")
    = Return (snd (sepia_request "data:image/png;base64,")) /\
  truthy (JString "data:image/png;base64,") = true /\
  truthy sepia = true /\
  @handler (sepia_platform "data:image/png;base64," echo_server)
    (sepia_event "data:image/png;base64,")
    = ([], Return {| statusCode := 400;
                     headers := None;
                     body := render (JObject [("error", JString "Invalid Base64 data")]) |}).
Proof.
  repeat (split; [reflexivity|]).
  apply (proj1 (@empty_payload_is_invalid
                  (sepia_platform "data:image/png;base64," echo_server)
                  (sepia_event "data:image/png;base64,")
                  (snd (sepia_request "data:image/png;base64,"))
                  "data:image/png;base64," sepia
                  eq_refl eq_refl eq_refl eq_refl eq_refl eq_refl)
           "data:image/png" eq_refl).
Defined.

(** The input that refutes C2 as stated: the empty buffer.  Its data
    URL ends with the marker, and the handler answers 400 "Invalid
    Base64 data" without calling the upstream that would have returned
    the empty body with status 200. *)
Lemma empty_buffer_is_rejected :
  "data:image/png;base64," ++ toString_base64 [] = "data:image/png;base64," /\
  @upstream (sepia_platform "data:image/png;base64," (constant_server 200 [] []))
    (@claid_request (sepia_platform "data:image/png;base64," (constant_server 200 [] []))
       [] sepia)
    = Return {| status := 200; response_headers := [];
                text := Return EmptyString; buffer := Return [] |} /\
  @handler (sepia_platform "data:image/png;base64," (constant_server 200 [] []))
    (sepia_event "data:image/png;base64,")
    = ([], Return {| statusCode := 400;
                     headers := None;
                     body := render (JObject [("error", JString "Invalid Base64 data")]) |}).
Proof. repeat split. Qed.

Lemma round_trip_witness :
  [xde; xad] <> [] /\
  httpMethod (sepia_event "data:image/png;base64,3q0=") = "POST" /\
  @upstream (sepia_platform "data:image/png;base64,3q0=" echo_server)
    (@claid_request (sepia_platform "data:image/png;base64,3q0=" echo_server)
       (Buffer_from_base64 (toString_base64 [xde; xad])) sepia)
    = Return {| status := 200; response_headers := [("Content-Type", "image/png")];
                text := Return (string_of_list_byte [xde; xad]);
                buffer := Return [xde; xad] |} /\
  exists imageData payload,
    @handler (sepia_platform "data:image/png;base64,3q0=" echo_server)
      (sepia_event "data:image/png;base64,3q0=")
    = ([Fetch (@claid_request (sepia_platform "data:image/png;base64,3q0=" echo_server)
                 [xde; xad] sepia)],
       Return {| statusCode := 200;
                 headers := Some [("Content-Type", "application/json")];
                 body := render (JObject [("imageData", JString imageData)]) |}) /\
    pop (split ";base64," imageData) = Some payload /\
    Buffer_from_base64 payload = [xde; xad].
Proof.
  split; [discriminate|]. repeat (split; [reflexivity|]).
  apply (@round_trip (sepia_platform "data:image/png;base64,3q0=" echo_server)
           (sepia_event "data:image/png;base64,3q0=")
           (snd (sepia_request "data:image/png;base64,3q0="))
           "image/png" [xde; xad] sepia
           {| status := 200; response_headers := [("Content-Type", "image/png")];
              text := Return (string_of_list_byte [xde; xad]);
              buffer := Return [xde; xad] |});
    [discriminate | reflexivity ..].
Defined.

Lemma sepia_scenario_witness :
  httpMethod (sepia_event "data:image/png;base64,AAAA") = "POST" /\
  @handler (sepia_platform "data:image/png;base64,AAAA"
              (constant_server 200 [("content-type", "image/png")] [xde; xad]))
    (sepia_event "data:image/png;base64,AAAA")
  = ([Fetch (@claid_request
               (sepia_platform "data:image/png;base64,AAAA"
                  (constant_server 200 [("content-type", "image/png")] [xde; xad]))
               [x00; x00; x00] sepia)],
     Return {| statusCode := 200;
               headers := Some [("Content-Type", "application/json")];
               body := render (JObject [("imageData",
                                         JString "data:image/png;base64,3q0=")]) |}).
Proof.
  split; [reflexivity|].
  apply (@sepia_scenario
           (sepia_platform "data:image/png;base64,AAAA"
              (constant_server 200 [("content-type", "image/png")] [xde; xad]))
           (sepia_event "data:image/png;base64,AAAA")
           {| status := 200; response_headers := [("content-type", "image/png")];
              text := Return (string_of_list_byte [xde; xad]);
              buffer := Return [xde; xad] |});
    reflexivity.
Defined.

Lemma upstream_failure_is_passed_on_witness :
  @accepted (sepia_platform "data:image/png;base64,AAAA"
               (constant_server 503 [] (list_byte_of_string "rate limited")))
    (sepia_event "data:image/png;base64,AAAA") "AAAA" sepia /\
  (503 < 200 \/ 300 <= 503)%Z /\
  @handler (sepia_platform "data:image/png;base64,AAAA"
              (constant_server 503 [] (list_byte_of_string "rate limited")))
    (sepia_event "data:image/png;base64,AAAA")
  = ([Fetch (@claid_request
               (sepia_platform "data:image/png;base64,AAAA"
                  (constant_server 503 [] (list_byte_of_string "rate limited")))
               [x00; x00; x00] sepia);
      ConsoleError "Claid.ai API Error:" (UpstreamFailure 503 "rate limited")],
     Return {| statusCode := 503;
               headers := None;
               body := render (JObject [("error",
                          JString "Claid.ai API failed: rate limited")]) |}) /\
  includes "rate limited" "Claid.ai API failed: rate limited" = true.
Proof.
  split; [apply sepia_accepted|]. split; [right; lia|].
  apply (@upstream_failure_is_passed_on
           (sepia_platform "data:image/png;base64,AAAA"
              (constant_server 503 [] (list_byte_of_string "rate limited")))
           (sepia_event "data:image/png;base64,AAAA") "AAAA" sepia
           {| status := 503; response_headers := [];
              text := Return "rate limited";
              buffer := Return (list_byte_of_string "rate limited") |} "rate limited");
    [apply sepia_accepted | reflexivity | right; cbn; lia | reflexivity].
Defined.

(** The input that refutes C5 as stated: a 200 response whose
    [content-type] header is present with the empty value.  The MIME
    type of the data URL is [image/png], not the header's value. *)
Lemma empty_content_type_is_png :
  Headers_get {| status := 200; response_headers := [("Content-Type", "")];
                 text := Return (string_of_list_byte [xde; xad]);
                 buffer := Return [xde; xad] |} "content-type" = Some "" /\
  @handler (sepia_platform "data:image/png;base64,AAAA"
              (constant_server 200 [("Content-Type", "")] [xde; xad]))
    (sepia_event "data:image/png;base64,AAAA")
  = ([Fetch (@claid_request
               (sepia_platform "data:image/png;base64,AAAA"
                  (constant_server 200 [("Content-Type", "")] [xde; xad]))
               [x00; x00; x00] sepia)],
     Return {| statusCode := 200;
               headers := Some [("Content-Type", "application/json")];
               body := render (JObject [("imageData",
                          JString ("data:" ++ "image/png" ++ ";base64,3q0="))]) |}) /\
  render (JObject [("imageData", JString ("data:" ++ "image/png" ++ ";base64,3q0="))])
    <> render (JObject [("imageData", JString ("data:" ++ "" ++ ";base64,3q0="))]).
Proof. repeat split. discriminate. Qed.

Lemma result_mime_type_witness :
  @accepted (sepia_platform "data:image/png;base64,AAAA"
               (constant_server 200 [("Content-Type", "image/jpeg")] [xde; xad]))
    (sepia_event "data:image/png;base64,AAAA") "AAAA" sepia /\
  (200 <= 200 < 300)%Z /\
  exists resultMimeType,
    @handler (sepia_platform "data:image/png;base64,AAAA"
                (constant_server 200 [("Content-Type", "image/jpeg")] [xde; xad]))
      (sepia_event "data:image/png;base64,AAAA")
    = ([Fetch (@claid_request
                 (sepia_platform "data:image/png;base64,AAAA"
                    (constant_server 200 [("Content-Type", "image/jpeg")] [xde; xad]))
                 [x00; x00; x00] sepia)],
       Return {| statusCode := 200;
                 headers := Some [("Content-Type", "application/json")];
                 body := render (JObject [("imageData", JString
                           ("data:" ++ resultMimeType ++ ";base64," ++ "3q0="))]) |}) /\
    resultMimeType = "image/jpeg".
Proof.
  split; [apply sepia_accepted|]. split; [lia|].
  destruct (@result_mime_type
              (sepia_platform "data:image/png;base64,AAAA"
                 (constant_server 200 [("Content-Type", "image/jpeg")] [xde; xad]))
              (sepia_event "data:image/png;base64,AAAA") "AAAA" sepia
              {| status := 200; response_headers := [("Content-Type", "image/jpeg")];
                 text := Return (string_of_list_byte [xde; xad]);
                 buffer := Return [xde; xad] |} [xde; xad]
              (sepia_accepted _) eq_refl (conj (Z.le_refl 200) eq_refl) eq_refl)
    as (mime & Hhandler & Hvalue & _).
  exists mime. split; [exact Hhandler|].
  apply Hvalue; [reflexivity | discriminate].
Defined.

(** The input that refutes C6 as stated: the body [null].  It parses as
    JSON and has neither field, yet destructuring it throws, and the
    handler answers 500, not 400. *)
Lemma null_body_is_internal_error :
  httpMethod (post "null") = "POST" /\
  @JSON_parse (stub [] unreachable_server) (or_else (event_body (post "null")) "{}")
    = Return JNull /\
  get JNull "imageBase64" = None /\
  @handler (stub [] unreachable_server) (post "null")
    = ([ConsoleError "Proxy Error:"
          (Thrown (TypeError
             "Cannot destructure property 'imageBase64' of 'null' as it is null."))],
       Return {| statusCode := 500;
                 headers := None;
                 body := render (JObject [("error", JString
                           "An internal error occurred in the proxy function.")]) |}) /\
  (500 <> 400)%Z.
Proof. repeat split. discriminate. Qed.

Lemma missing_field_is_bad_request_witness :
  httpMethod {| httpMethod := "POST"; event_body := None |} = "POST" /\
  @JSON_parse (stub [] unreachable_server) "{}" = Return (JObject []) /\
  JObject [] <> JNull /\
  (get (JObject []) "imageBase64" = None \/ get (JObject []) "instructions" = None) /\
  @handler (stub [] unreachable_server) {| httpMethod := "POST"; event_body := None |}
    = ([], Return {| statusCode := 400;
                     headers := None;
                     body := render (JObject [("error", JString
                       "Missing imageBase64 or instructions in request body")]) |}).
Proof.
  repeat (split; [reflexivity|]). split; [discriminate|]. split; [left; reflexivity|].
  apply (@missing_field_is_bad_request (stub [] unreachable_server)
           {| httpMethod := "POST"; event_body := None |} (JObject []));
    [reflexivity | reflexivity | discriminate | left; reflexivity].
Defined.

Lemma method_not_allowed_witness :
  "GET" <> "POST" /\
  @handler (with_JSON_parse (stub [] unreachable_server) reject_all)
    {| httpMethod := "GET"; event_body := Some "{ not JSON" |}
    = ([], Return {| statusCode := 405;
                     headers := None;
                     body := render (JObject [("error", JString "Method Not Allowed")]) |}).
Proof.
  split; [discriminate|].
  apply (@method_not_allowed (stub [] unreachable_server) "GET"); discriminate.
Defined.

Lemma falsy_field_is_missing_witness :
  httpMethod (post (zero_body "data:image/png;base64,AAAA")) = "POST" /\
  @JSON_parse (stub [zero_request "data:image/png;base64,AAAA"] unreachable_server)
    (or_else (event_body (post (zero_body "data:image/png;base64,AAAA"))) "{}")
    = Return (JObject [("imageBase64", JString "data:image/png;base64,AAAA");
                       ("instructions", JNumber 0)]) /\
  own_property "instructions"
    [("imageBase64", JString "data:image/png;base64,AAAA"); ("instructions", JNumber 0)]
    = Some (JNumber 0) /\
  truthy (JNumber 0) = false /\
  @handler (stub [zero_request "data:image/png;base64,AAAA"] unreachable_server)
    (post (zero_body "data:image/png;base64,AAAA"))
    = ([], Return {| statusCode := 400;
                     headers := None;
                     body := render (JObject [("error", JString
                       "Missing imageBase64 or instructions in request body")]) |}).
Proof.
  repeat (split; [reflexivity|]).
  apply (proj1 (@falsy_field_is_missing
           (stub [zero_request "data:image/png;base64,AAAA"] unreachable_server)
           (post (zero_body "data:image/png;base64,AAAA"))
           [("imageBase64", JString "data:image/png;base64,AAAA");
            ("instructions", JNumber 0)]
           (JNumber 0)
           eq_refl eq_refl (or_intror eq_refl) eq_refl)).
Defined.

Lemma thrown_is_internal_error_witness :
  httpMethod (post "{ not JSON") = "POST" /\
  @JSON_parse (stub [] unreachable_server) (or_else (event_body (post "{ not JSON")) "{}")
    = Throw (SyntaxError "Unexpected token in JSON") /\
  @handler (stub [] unreachable_server) (post "{ not JSON")
    = ([ConsoleError "Proxy Error:" (Thrown (SyntaxError "Unexpected token in JSON"))],
       Return {| statusCode := 500;
                 headers := None;
                 body := render (JObject [("error", JString
                           "An internal error occurred in the proxy function.")]) |}).
Proof.
  repeat (split; [reflexivity|]).
  apply (proj1 (proj2 (@thrown_is_internal_error (stub [] unreachable_server)
                         (post "{ not JSON") eq_refl))).
  reflexivity.
Defined.

Example network_failure_is_internal_error :
  @handler (sepia_platform "data:image/png;base64,AAAA" unreachable_server)
    (sepia_event "data:image/png;base64,AAAA")
  = ([Fetch (@claid_request
               (sepia_platform "data:image/png;base64,AAAA" unreachable_server)
               [x00; x00; x00] sepia);
      ConsoleError "Proxy Error:"
        (Thrown (FetchError "request to https://api.claid.ai/v1/image-processing failed"))],
     Return {| statusCode := 500;
               headers := None;
               body := "{" ++ quoted "error" ++ ":"
                 ++ quoted "An internal error occurred in the proxy function." ++ "}" |}).
Proof. reflexivity. Qed.

Lemma outbound_request_witness :
  @accepted (sepia_platform "data:image/png;base64,AAAA" echo_server)
    (sepia_event "data:image/png;base64,AAAA") "AAAA" sepia /\
  fetches (fst (@handler (sepia_platform "data:image/png;base64,AAAA" echo_server)
                  (sepia_event "data:image/png;base64,AAAA")))
  = [ {| url := "https://api.claid.ai/v1/image-processing";
         method := "POST";
         request_headers :=
           [ ("Authorization", "Claid-API-Key b075a8d36b374209ac11df342fe68a73");
             ("content-type",
              "multipart/form-data; boundary=--------------------------000000000000000000000000") ];
         request_body :=
           [ {| part_name := "source_image";
                part_data := BufferValue [x00; x00; x00];
                part_filename := Some "upload.png";
                part_contentType := Some "image/png" |};
             {| part_name := "instructions";
                part_data := StringValue (render sepia);
                part_filename := None;
                part_contentType := None |} ] |} ].
Proof.
  split; [apply sepia_accepted|].
  apply (@outbound_request (sepia_platform "data:image/png;base64,AAAA" echo_server)
           (sepia_event "data:image/png;base64,AAAA") "AAAA" sepia).
  apply sepia_accepted.
Defined.

(* ================================================================= *)
(** * The handler as a whole *)

Section HandlerCases.

Context {platform : Platform}.

(** The ways an accepted request ends, by what the upstream does. *)
Lemma accepted_cases (event : HandlerEvent) (base64Data : string) (instructions : json) :
  accepted event base64Data instructions ->
  let req := claid_request (Buffer_from_base64 base64Data) instructions in
  (exists e,
     upstream req = Throw e /\
     handler event =
       ([Fetch req; ConsoleError "Proxy Error:" (Thrown e)],
        Return (error_response 500 "An internal error occurred in the proxy function."))) \/
  (exists response e,
     upstream req = Return response /\
     ((ok response = false /\ text response = Throw e) \/
      (ok response = true /\ buffer response = Throw e)) /\
     handler event =
       ([Fetch req; ConsoleError "Proxy Error:" (Thrown e)],
        Return (error_response 500 "An internal error occurred in the proxy function."))) \/
  (exists response errorBody,
     upstream req = Return response /\ ok response = false /\
     text response = Return errorBody /\
     handler event =
       ([Fetch req;
         ConsoleError "Claid.ai API Error:" (UpstreamFailure (status response) errorBody)],
        Return (error_response (status response) ("Claid.ai API failed: " ++ errorBody)))) \/
  (exists response resultBuffer,
     upstream req = Return response /\ ok response = true /\
     buffer response = Return resultBuffer /\
     handler event =
       ([Fetch req],
        Return {| statusCode := 200;
                  headers := Some [("Content-Type", "application/json")];
                  body := JSON_stringify (JObject [("imageData", JString
                    ("data:" ++ or_else (Headers_get response "content-type") "image/png"
                       ++ ";base64," ++ toString_base64 resultBuffer))]) |})).
Proof.
  intros H req.
  destruct (upstream req) as [response|e] eqn:Hup.
  - destruct (ok response) eqn:Hok.
    + destruct (buffer response) as [resultBuffer|e] eqn:Hbuf.
      * right; right; right. exists response, resultBuffer.
        repeat split; try assumption. now apply accepted_success.
      * right; left. exists response, e. repeat split; auto.
        rewrite (handler_post _ (proj1 H)), (accepted_try_block _ _ _ H).
        unfold fetch, bind, emit, lift. fold req. rewrite Hup.
        unfold relay, bind, lift. rewrite Hok, Hbuf. reflexivity.
    + destruct (text response) as [errorBody|e] eqn:Htext.
      * right; right; left. exists response, errorBody.
        repeat split; try assumption. now apply accepted_failure.
      * right; left. exists response, e. repeat split; auto.
        rewrite (handler_post _ (proj1 H)), (accepted_try_block _ _ _ H).
        unfold fetch, bind, emit, lift. fold req. rewrite Hup.
        unfold relay, bind, lift. rewrite Hok, Htext. reflexivity.
  - left. exists e. split; [reflexivity|].
    rewrite (handler_post _ (proj1 H)), (accepted_try_block _ _ _ H).
    unfold fetch, bind, emit, lift. fold req. rewrite Hup. reflexivity.
Qed.

(** The ways a request ends before any upstream call, or else it is
    accepted. *)
Lemma handler_cases (event : HandlerEvent) :
  (httpMethod event <> "POST" /\
   handler event = ([], Return (error_response 405 "Method Not Allowed"))) \/
  (httpMethod event = "POST" /\
   handler event =
     ([], Return (error_response 400
                    "Missing imageBase64 or instructions in request body"))) \/
  (httpMethod event = "POST" /\
   handler event = ([], Return (error_response 400 "Invalid Base64 data"))) \/
  (httpMethod event = "POST" /\
   exists e,
     handler event =
       ([ConsoleError "Proxy Error:" (Thrown e)],
        Return (error_response 500 "An internal error occurred in the proxy function."))) \/
  (exists base64Data instructions, accepted event base64Data instructions).
Proof.
  destruct (String.eqb_spec (httpMethod event) "POST") as [Hpost|Hpost].
  2:{ left. split; [exact Hpost|]. unfold handler.
      destruct (String.eqb_spec (httpMethod event) "POST"); [contradiction | reflexivity]. }
  right. rewrite (handler_post _ Hpost). unfold try_block.
  destruct (JSON_parse (or_else (event_body event) "{}")) as [parsed|e] eqn:Hparse.
  2:{ right; right; left. split; [exact Hpost|]. exists e. reflexivity. }
  rewrite bind_return.
  assert (Hd : parsed = JNull \/
               destructure parsed =
                 Return (get parsed "imageBase64", get parsed "instructions"))
    by (destruct parsed; auto).
  destruct Hd as [->|Hd].
  { right; right; left. split; [exact Hpost|]. eexists. reflexivity. }
  rewrite Hd, bind_return.
  destruct (get parsed "imageBase64") as [image|] eqn:Himage;
    [|left; split; [exact Hpost | reflexivity]].
  destruct (get parsed "instructions") as [instructions|] eqn:Hins;
    [|left; split; [exact Hpost | reflexivity]].
  destruct (truthy image) eqn:Htimage;
    [|left; split; [exact Hpost | reflexivity]].
  destruct (truthy instructions) eqn:Htins;
    [|left; split; [exact Hpost | reflexivity]].
  cbn [negb orb].
  assert (Hs : (exists s, image = JString s) \/
               call_split image ";base64," =
                 Throw (TypeError "imageBase64.split is not a function"))
    by (destruct image; eauto).
  destruct Hs as [[s ->]|Hs].
  2:{ rewrite Hs. right; right; left. split; [exact Hpost|]. eexists. reflexivity. }
  cbn [call_split]. rewrite bind_return.
  destruct (pop (split ";base64," s)) as [base64Data|] eqn:Hpop;
    [|right; left; split; [exact Hpost | reflexivity]].
  destruct (String.eqb_spec base64Data EmptyString) as [->|Hne];
    [right; left; split; [exact Hpost | reflexivity]|].
  right; right; right. exists base64Data, instructions.
  split; [exact Hpost|]. exists parsed, s. repeat split; assumption.
Qed.


(** X1.  Every request gets an answer in one of two shapes: status 200
    with the JSON content type and a body [{ imageData: url }] whose
    [url] is a Base64 data URL with a non-empty MIME type, or a status
    outside 200..299, no headers and a body [{ error: message }] with a
    non-empty message. *)
Theorem response_envelope (event : HandlerEvent) :
  exists t r,
    handler event = (t, Return r) /\
    ((statusCode r = 200%Z /\
      headers r = Some [("Content-Type", "application/json")] /\
      exists mime resultBuffer,
        mime <> EmptyString /\
        body r = JSON_stringify (JObject [("imageData", JString
                   ("data:" ++ mime ++ ";base64," ++ toString_base64 resultBuffer))])) \/
     ((statusCode r < 200 \/ 300 <= statusCode r)%Z /\
      headers r = None /\
      exists message,
        message <> EmptyString /\
        body r = JSON_stringify (JObject [("error", JString message)]))).
Proof.
  assert (Herr : forall t code message,
            handler event = (t, Return (error_response code message)) ->
            (code < 200 \/ 300 <= code)%Z -> message <> EmptyString ->
            exists t r,
              handler event = (t, Return r) /\
              ((statusCode r = 200%Z /\
                headers r = Some [("Content-Type", "application/json")] /\
                exists mime resultBuffer,
                  mime <> EmptyString /\
                  body r = JSON_stringify (JObject [("imageData", JString
                    ("data:" ++ mime ++ ";base64," ++ toString_base64 resultBuffer))])) \/
               ((statusCode r < 200 \/ 300 <= statusCode r)%Z /\
                headers r = None /\
                exists message,
                  message <> EmptyString /\
                  body r = JSON_stringify (JObject [("error", JString message)])))).
  { intros t code message H Hcode Hmsg. exists t, (error_response code message).
    split; [exact H|]. right. repeat split; [exact Hcode|].
    exists message. split; [exact Hmsg | reflexivity]. }
  destruct (handler_cases event)
    as [[_ H]|[[_ H]|[[_ H]|[[_ [e H]]|(base64Data & instructions & Hacc)]]]].
  - eapply Herr; [exact H | right; lia | discriminate].
  - eapply Herr; [exact H | right; lia | discriminate].
  - eapply Herr; [exact H | right; lia | discriminate].
  - eapply Herr; [exact H | right; lia | discriminate].
  - destruct (accepted_cases _ _ _ Hacc)
      as [(e & _ & H)|[(response & e & _ & _ & H)
         |[(response & errorBody & _ & Hok & _ & H)
          |(response & resultBuffer & _ & _ & _ & H)]]].
    + eapply Herr; [exact H | right; lia | discriminate].
    + eapply Herr; [exact H | right; lia | discriminate].
    + eapply Herr; [exact H | | discriminate].
      unfold ok in Hok. apply andb_false_iff in Hok as [Hok|Hok]; lia.
    + eexists _, _. split; [exact H|]. left. repeat split.
      exists (or_else (Headers_get response "content-type") "image/png"), resultBuffer.
      split; [|reflexivity].
      unfold or_else. destruct (Headers_get response "content-type") as [m|];
        [|discriminate].
      destruct (String.eqb_spec m EmptyString); [discriminate | assumption].
Qed.

(** X2.  A status in 200..299 is always 200, and it is only given to an
    accepted request whose single upstream call was answered with a
    status in 200..299 and a readable body. *)
Theorem success_needs_upstream_success (event : HandlerEvent)
  (t : list effect) (r : HandlerResponse) :
  handler event = (t, Return r) ->
  (200 <= statusCode r < 300)%Z ->
  statusCode r = 200%Z /\
  exists base64Data instructions response resultBuffer,
    accepted event base64Data instructions /\
    t = [Fetch (claid_request (Buffer_from_base64 base64Data) instructions)] /\
    upstream (claid_request (Buffer_from_base64 base64Data) instructions)
      = Return response /\
    (200 <= status response < 300)%Z /\
    buffer response = Return resultBuffer.
Proof.
  intros Hr Hstatus.
  destruct (handler_cases event)
    as [[_ H]|[[_ H]|[[_ H]|[[_ [e H]]|(base64Data & instructions & Hacc)]]]];
    try (rewrite H in Hr; injection Hr as <- <-; cbn in Hstatus; exfalso; lia).
  destruct (accepted_cases _ _ _ Hacc)
    as [(e & _ & H)|[(response & e & _ & _ & H)
       |[(response & errorBody & _ & Hok & _ & H)
        |(response & resultBuffer & Hup & Hok & Hbuf & H)]]];
    try (rewrite H in Hr; injection Hr as <- <-; cbn in Hstatus; exfalso; lia).
  - rewrite H in Hr; injection Hr as <- <-. cbn in Hstatus. exfalso.
    unfold ok in Hok. apply andb_false_iff in Hok as [Hok|Hok]; lia.
  - rewrite H in Hr; injection Hr as <- <-. split; [reflexivity|].
    exists base64Data, instructions, response, resultBuffer.
    unfold ok in Hok; apply andb_prop in Hok as [H1 H2].
    split; [exact Hacc|]. split; [reflexivity|]. split; [exact Hup|].
    split; [lia | exact Hbuf].
Qed.

(** X3.  The upstream is contacted for accepted requests and for no
    other: the handler sends nothing exactly when the request is not
    accepted, and never sends more than one request. *)
Theorem upstream_only_when_accepted (event : HandlerEvent) :
  (fetches (fst (handler event)) = [] <->
   forall base64Data instructions, ~ accepted event base64Data instructions) /\
  (length (fetches (fst (handler event))) <= 1)%nat.
Proof.
  destruct (handler_cases event)
    as [[Hm H]|[[_ H]|[[_ H]|[[_ [e H]]|(base64Data & instructions & Hacc)]]]].
  5:{ pose proof (accepted_sends_once _ _ _ Hacc) as Hsent. rewrite Hsent.
      split; [|simpl; lia]. split; [discriminate|].
      intros Hnone. exfalso. exact (Hnone _ _ Hacc). }
  all: rewrite H; split; [|simpl; lia]; split; [|reflexivity];
    intros _ b i Hacc; pose proof (accepted_sends_once _ _ _ Hacc) as Hsent;
    rewrite H in Hsent; discriminate.
Qed.


(** X4.  The handler writes at most one [console.error] line.  The
    answers to a bad method, to a missing field and to an empty payload,
    and the 200 answer, come with no line at all; a line labelled
    "Proxy Error:" holds what was thrown and comes with the 500 answer;
    a line labelled "Claid.ai API Error:" holds the upstream status and
    text that the answer passes on. *)
Theorem logging_discipline (event : HandlerEvent)
  (t : list effect) (r : HandlerResponse) :
  handler event = (t, Return r) ->
  (logs t = [] /\
   (statusCode r = 405 \/ statusCode r = 400 \/ statusCode r = 200)%Z) \/
  (exists e,
     logs t = [("Proxy Error:", Thrown e)] /\
     r = error_response 500 "An internal error occurred in the proxy function.") \/
  (exists errorBody,
     logs t = [("Claid.ai API Error:", UpstreamFailure (statusCode r) errorBody)] /\
     (statusCode r < 200 \/ 300 <= statusCode r)%Z /\
     r = error_response (statusCode r) ("Claid.ai API failed: " ++ errorBody)).
Proof.
  intros Hr.
  destruct (handler_cases event)
    as [[_ H]|[[_ H]|[[_ H]|[[_ [e H]]|(base64Data & instructions & Hacc)]]]].
  1-3: rewrite H in Hr; injection Hr as <- <-; left; cbn; auto.
  - rewrite H in Hr; injection Hr as <- <-. right; left. exists e. split; reflexivity.
  - destruct (accepted_cases _ _ _ Hacc)
      as [(e & _ & H)|[(response & e & _ & _ & H)
         |[(response & errorBody & _ & Hok & _ & H)
          |(response & resultBuffer & _ & _ & _ & H)]]];
      rewrite H in Hr; injection Hr as <- <-.
    + right; left. exists e. split; reflexivity.
    + right; left. exists e. split; reflexivity.
    + right; right. exists errorBody. split; [reflexivity|]. split; [|reflexivity].
      cbn. unfold ok in Hok. apply andb_false_iff in Hok as [Hok|Hok]; lia.
    + left. cbn. auto.
Qed.

(** X5.  A truthy [imageBase64] that is not a string (a number, [true],
    an array, an object) has no [split] method: next to truthy
    instructions the call throws, the handler logs the error and answers
    500, and nothing is sent upstream. *)
Theorem non_string_image_is_internal_error (event : HandlerEvent) (parsed : json)
  (imageBase64 instructions : json) :
  httpMethod event = "POST" ->
  JSON_parse (or_else (event_body event) "{}") = Return parsed ->
  get parsed "imageBase64" = Some imageBase64 ->
  get parsed "instructions" = Some instructions ->
  truthy imageBase64 = true ->
  truthy instructions = true ->
  (forall s, imageBase64 <> JString s) ->
  exists e,
    handler event =
      ([ConsoleError "Proxy Error:" (Thrown e)],
       Return {| statusCode := 500;
                 headers := None;
                 body := JSON_stringify (JObject [("error", JString
                           "An internal error occurred in the proxy function.")]) |}).
Proof.
  intros Hpost Hparse Himage Hins Htruthy Htruthy' Hnot.
  exists (TypeError "imageBase64.split is not a function").
  rewrite (handler_post _ Hpost). unfold try_block.
  rewrite Hparse, bind_return.
  rewrite (destructure_defined _ _ _ Himage), bind_return, Himage, Hins.
  rewrite Htruthy, Htruthy'. cbn [negb orb].
  destruct imageBase64; try reflexivity. exfalso. exact (Hnot _ eq_refl).
Qed.

(** X6.  A POST request with no body or with the empty body is handled
    as the body [{}]: on a platform whose [JSON.parse] reads [{}] as the
    empty object it is answered with 400 and the missing-field
    error, and nothing is sent upstream. *)
Theorem empty_body_is_missing_field (event : HandlerEvent) :
  httpMethod event = "POST" ->
  event_body event = None \/ event_body event = Some EmptyString ->
  JSON_parse "{}" = Return (JObject []) ->
  handler event =
    ([], Return {| statusCode := 400;
                   headers := None;
                   body := JSON_stringify (JObject [("error", JString
                     "Missing imageBase64 or instructions in request body")]) |}).
Proof.
  intros Hpost Hbody Hparse.
  apply (absent_field event (JObject []) Hpost).
  - destruct Hbody as [H|H]; rewrite H; exact Hparse.
  - discriminate.
  - left. reflexivity.
Qed.

(** X7.  The relay loses nothing: whatever bytes a successful upstream
    response holds, and whatever its [content-type] header says, the
    text after the [;base64,] marker of the [imageData] the handler
    returns decodes to exactly those bytes. *)
Theorem relay_is_lossless (event : HandlerEvent) (base64Data : string)
  (instructions : json) (response : FetchResponse) (resultBuffer : Buffer) :
  accepted event base64Data instructions ->
  upstream (claid_request (Buffer_from_base64 base64Data) instructions) = Return response ->
  (200 <= status response < 300)%Z ->
  buffer response = Return resultBuffer ->
  exists imageData payload,
    snd (handler event) =
      Return {| statusCode := 200;
                headers := Some [("Content-Type", "application/json")];
                body := JSON_stringify (JObject [("imageData", JString imageData)]) |} /\
    pop (split ";base64," imageData) = Some payload /\
    Buffer_from_base64 payload = resultBuffer.
Proof.
  intros H Hup Hstatus Hbuf.
  exists ("data:" ++ or_else (Headers_get response "content-type") "image/png"
            ++ ";base64," ++ toString_base64 resultBuffer),
         (toString_base64 resultBuffer).
  repeat split.
  - rewrite (accepted_success _ _ _ _ resultBuffer H Hup); [reflexivity | | exact Hbuf].
    unfold ok. rewrite (proj2 (Z.leb_le _ _)), (proj2 (Z.ltb_lt _ _)) by lia.
    reflexivity.
  - rewrite <- append_assoc. apply pop_split_marker, base64_no_semicolon.
  - apply base64_roundtrip.
Qed.

(** X8.  Editing in steps: the [imageData] of a 200 answer can be sent
    back as the [imageBase64] of a next request.  When the upstream had
    returned at least one byte, the next request uploads exactly the
    bytes the upstream had returned; when it had returned an empty
    body, the next request is refused with "Invalid Base64 data". *)
Theorem result_can_be_resubmitted (event : HandlerEvent) (base64Data : string)
  (instructions : json) (response : FetchResponse) (resultBuffer : Buffer) :
  let imageData :=
    "data:" ++ or_else (Headers_get response "content-type") "image/png"
      ++ ";base64," ++ toString_base64 resultBuffer in
  accepted event base64Data instructions ->
  upstream (claid_request (Buffer_from_base64 base64Data) instructions) = Return response ->
  (200 <= status response < 300)%Z ->
  buffer response = Return resultBuffer ->
  snd (handler event) =
    Return {| statusCode := 200;
              headers := Some [("Content-Type", "application/json")];
              body := JSON_stringify (JObject [("imageData", JString imageData)]) |} /\
  forall (next : HandlerEvent) (parsed nextInstructions : json),
    httpMethod next = "POST" ->
    JSON_parse (or_else (event_body next) "{}") = Return parsed ->
    get parsed "imageBase64" = Some (JString imageData) ->
    get parsed "instructions" = Some nextInstructions ->
    truthy nextInstructions = true ->
    (resultBuffer <> [] ->
       fetches (fst (handler next)) = [claid_request resultBuffer nextInstructions]) /\
    (resultBuffer = [] ->
       handler next = ([], Return (error_response 400 "Invalid Base64 data"))).
Proof.
  intros imageData H Hup Hstatus Hbuf.
  split.
  - rewrite (accepted_success _ _ _ _ resultBuffer H Hup); [reflexivity | | exact Hbuf].
    unfold ok. rewrite (proj2 (Z.leb_le _ _)), (proj2 (Z.ltb_lt _ _)) by lia.
    reflexivity.
  - intros next parsed nextInstructions Hpost Hparse Himage Hins Htruthy.
    assert (Hpop : pop (split ";base64," imageData)
                   = Some (toString_base64 resultBuffer))
      by (unfold imageData; rewrite <- append_assoc;
          apply pop_split_marker, base64_no_semicolon).
    split.
    + intros Hne.
      rewrite <- (base64_roundtrip resultBuffer).
      apply accepted_sends_once. split; [exact Hpost|].
      exists parsed, imageData.
      repeat split; try assumption. now apply base64_not_empty.
    + intros ->.
      rewrite (handler_post _ Hpost). unfold try_block.
      rewrite Hparse, bind_return.
      rewrite (destructure_defined _ _ _ Himage), bind_return, Himage, Hins.
      assert (Himg : truthy (JString imageData) = true) by reflexivity.
      rewrite Htruthy, Himg. cbn [negb orb call_split].
      rewrite bind_return, Hpop. reflexivity.
Qed.

End HandlerCases.

(* ================================================================= *)
(** * The services in the browser *)

Section ServiceProperties.

Context {platform : Platform} {browser : Browser}.

Lemma andThen_resolved {A B : Type} (a : A) (k : A -> Promise B) :
  andThen (await (Resolved a)) k = k a.
Proof. unfold andThen, await. destruct (k a). reflexivity. Qed.

(** What [callClaidApiProxy] does once the file is read and the proxy
    has answered. *)
Lemma proxy_call_answered (file : File) (payload : json) (imageBase64 : string)
  (response : Response) :
  readAsDataURL file = Resolved imageBase64 ->
  respond (proxy_request imageBase64 payload) = Resolved response ->
  callClaidApiProxy file payload =
    (BrowserFetch (proxy_request imageBase64 payload) :: fst (proxy_reply response),
     snd (proxy_reply response)).
Proof.
  intros Hread Hrespond. unfold callClaidApiProxy, fileToBase64.
  rewrite Hread, andThen_resolved. unfold browser_fetch.
  rewrite Hrespond. unfold andThen, perform, await.
  destruct (proxy_reply response). reflexivity.
Qed.

Lemma direct_call_answered (file : File) (payload : json) (response : Response) :
  respond (direct_request file payload) = Resolved response ->
  callClaidApi file payload =
    (ConsoleLog "Sending request to Claid.ai with payload:" (Payload payload)
       :: BrowserFetch (direct_request file payload) :: fst (direct_reply response),
     snd (direct_reply response)).
Proof.
  intros Hrespond. unfold callClaidApi, browser_fetch.
  rewrite Hrespond. unfold andThen, perform, await.
  destruct (direct_reply response). reflexivity.
Qed.

Lemma proxy_reply_no_fetch (response : Response) :
  browser_fetches (fst (proxy_reply response)) = [].
Proof.
  unfold proxy_reply. destruct (negb (response_ok response)).
  - unfold read_error_body. destruct (response_json response); [reflexivity|].
    destruct (response_text response); reflexivity.
  - destruct (response_json response) as [result|]; [|reflexivity].
    rewrite andThen_resolved.
    destruct result; try reflexivity;
      cbn [get_imageData]; rewrite andThen_resolved;
      match goal with
      | |- context [get ?v ?k] => destruct (get v k) as [x|]; [destruct (truthy x)|]
      end; reflexivity.
Qed.

Lemma direct_reply_no_fetch (response : Response) :
  browser_fetches (fst (direct_reply response)) = [].
Proof.
  unfold direct_reply. destruct (negb (response_ok response)).
  - unfold read_error_body. destruct (response_json response); [reflexivity|].
    destruct (response_text response); reflexivity.
  - destruct (response_blob response) as [blob|]; [|reflexivity].
    rewrite andThen_resolved.
    destruct (negb (startsWith "image/" (blob_type blob))).
    + destruct (blob_text blob); reflexivity.
    + destruct (blob_dataURL blob); reflexivity.
Qed.

Lemma proxy_fetches (file : File) (payload : json) :
  browser_fetches (fst (callClaidApiProxy file payload)) =
    match readAsDataURL file with
    | Resolved imageBase64 => [proxy_request imageBase64 payload]
    | Rejected _ => []
    end.
Proof.
  destruct (readAsDataURL file) as [imageBase64|r] eqn:Hread.
  - destruct (respond (proxy_request imageBase64 payload)) as [response|r] eqn:Hrespond.
    + rewrite (proxy_call_answered _ _ _ _ Hread Hrespond).
      cbn [fst browser_fetches]. now rewrite proxy_reply_no_fetch.
    + unfold callClaidApiProxy, fileToBase64.
      rewrite Hread, andThen_resolved. unfold browser_fetch.
      rewrite Hrespond. reflexivity.
  - unfold callClaidApiProxy, fileToBase64. rewrite Hread. reflexivity.
Qed.

Lemma direct_fetches (file : File) (payload : json) :
  browser_fetches (fst (callClaidApi file payload)) = [direct_request file payload].
Proof.
  destruct (respond (direct_request file payload)) as [response|r] eqn:Hrespond.
  - rewrite (direct_call_answered _ _ _ Hrespond).
    cbn [fst browser_fetches]. now rewrite direct_reply_no_fetch.
  - unfold callClaidApi, browser_fetch. rewrite Hrespond. reflexivity.
Qed.

(** X9.  Each call of a service sends at most one request and never
    tries again.  [callClaidApiProxy] sends its one request to the
    proxy endpoint when the file could be read, and none when the
    [FileReader] failed; [callClaidApi] always sends its one request to
    Claid.ai.  This holds whatever the answer is. *)
Theorem services_send_once (file : File) (payload : json) :
  browser_fetches (fst (callClaidApiProxy file payload)) =
    match readAsDataURL file with
    | Resolved imageBase64 =>
        [ {| endpoint := "/.netlify/functions/claid-proxy";
             http_method := "POST";
             http_headers := [("Content-Type", "application/json")];
             http_body :=
               JsonText (JSON_stringify
                           (JObject [("imageBase64", JString imageBase64);
                                     ("instructions", payload)])) |} ]
    | Rejected _ => []
    end /\
  browser_fetches (fst (callClaidApi file payload)) =
    [ {| endpoint := "https://api.claid.ai/v1/image-processing";
         http_method := "POST";
         http_headers :=
           [("Authorization", "Claid-API-Key b075a8d36b374209ac11df342fe68a73")];
         http_body :=
           FormBody [("source_image", inl file);
                     ("instructions", inr (JSON_stringify payload))] |} ].
Proof.
  split; [apply proxy_fetches | apply direct_fetches].
Qed.

(** X10.  When the proxy answers [callClaidApiProxy] with a status
    outside 200..299 and a JSON body, the call is rejected with an
    [Error] whose message is "The AI service returned an error. "
    followed by the [error] string of the body when the body is an
    object with a non-empty one, and by the JSON text of the whole body
    when the body has no [error] property.  The failure is logged
    once. *)
Theorem proxy_failure_is_reported (file : File) (payload : json)
  (imageBase64 : string) (response : Response) (errorBody : json) :
  readAsDataURL file = Resolved imageBase64 ->
  respond (proxy_request imageBase64 payload) = Resolved response ->
  (response_status response < 200 \/ 300 <= response_status response)%Z ->
  response_json response = Resolved errorBody ->
  fst (callClaidApiProxy file payload) =
    [BrowserFetch (proxy_request imageBase64 payload);
     BrowserConsoleError "API Proxy Error:"
       (Failure (response_status response) errorBody)] /\
  (forall message,
     get errorBody "error" = Some (JString message) -> message <> EmptyString ->
     snd (callClaidApiProxy file payload) =
       Rejected (JsError ("The AI service returned an error. " ++ message))) /\
  (get errorBody "error" = None ->
     snd (callClaidApiProxy file payload) =
       Rejected (JsError ("The AI service returned an error. "
                            ++ JSON_stringify errorBody))).
Proof.
  intros Hread Hrespond Hstatus Hjson.
  rewrite (proxy_call_answered _ _ _ _ Hread Hrespond).
  assert (Hok : response_ok response = false).
  { unfold response_ok. destruct Hstatus.
    - rewrite (proj2 (Z.leb_gt _ _)) by lia. reflexivity.
    - rewrite (proj2 (Z.ltb_ge _ _)) by lia. apply andb_false_r. }
  unfold proxy_reply, read_error_body. rewrite Hok, Hjson. cbn [negb].
  unfold andThen, resolve, perform, reject. cbn [fst snd app].
  split; [reflexivity|]. split.
  - intros message Hget Hne. unfold error_message. rewrite Hget.
    assert (Hobj : typeof_object errorBody = true)
      by (destruct errorBody; try discriminate; reflexivity).
    rewrite Hobj. cbn [truthy andb].
    destruct (String.eqb_spec message EmptyString); [contradiction | reflexivity].
  - intros Hget. unfold error_message. rewrite Hget. reflexivity.
Qed.

(** X11.  When the proxy answers [callClaidApiProxy] with a status in
    200..299 and a JSON body other than [null], the call resolves to
    the [imageData] of the body when that is truthy; when [imageData]
    is absent or falsy the call logs the fact and is rejected with the
    [Error] "The API did not return a valid image. Please check the API
    key and prompt.". *)
Theorem proxy_success_needs_image_data (file : File) (payload : json)
  (imageBase64 : string) (response : Response) (result : json) :
  readAsDataURL file = Resolved imageBase64 ->
  respond (proxy_request imageBase64 payload) = Resolved response ->
  (200 <= response_status response < 300)%Z ->
  response_json response = Resolved result ->
  result <> JNull ->
  (forall imageData,
     get result "imageData" = Some imageData -> truthy imageData = true ->
     callClaidApiProxy file payload =
       ([BrowserFetch (proxy_request imageBase64 payload)], Resolved imageData)) /\
  (get result "imageData" = None \/
   (exists imageData, get result "imageData" = Some imageData /\ truthy imageData = false) ->
     callClaidApiProxy file payload =
       ([BrowserFetch (proxy_request imageBase64 payload);
         BrowserConsoleError "API Error: The proxy did not return valid image data."
           NoDetail],
        Rejected (JsError
          "The API did not return a valid image. Please check the API key and prompt."))).
Proof.
  intros Hread Hrespond Hstatus Hjson Hnull.
  rewrite (proxy_call_answered _ _ _ _ Hread Hrespond).
  assert (Hok : response_ok response = true).
  { unfold response_ok.
    rewrite (proj2 (Z.leb_le _ _)), (proj2 (Z.ltb_lt _ _)) by lia. reflexivity. }
  unfold proxy_reply. rewrite Hok, Hjson. cbn [negb]. rewrite andThen_resolved.
  assert (Hget : get_imageData result = Resolved (get result "imageData"))
    by (destruct result; [contradiction | reflexivity ..]).
  rewrite Hget, andThen_resolved. split.
  - intros imageData Himage Htruthy. rewrite Himage, Htruthy. reflexivity.
  - intros [Himage|(imageData & Himage & Hfalsy)]; rewrite Himage.
    + reflexivity.
    + rewrite Hfalsy. reflexivity.
Qed.

(** X12.  When Claid.ai answers [callClaidApi] with a status in
    200..299 but the blob of the response has a type that does not
    begin with [image/], the call logs the text of the response and is
    rejected with the [Error] "The API did not return a valid image.
    Please check the API key and prompt."; no data URL is made of the
    response. *)
Theorem direct_rejects_non_image (file : File) (payload : json)
  (response : Response) (imageBlob : Blob) (errorText : string) :
  respond (direct_request file payload) = Resolved response ->
  (200 <= response_status response < 300)%Z ->
  response_blob response = Resolved imageBlob ->
  startsWith "image/" (blob_type imageBlob) = false ->
  blob_text imageBlob = Resolved errorText ->
  callClaidApi file payload =
    ([ConsoleLog "Sending request to Claid.ai with payload:" (Payload payload);
      BrowserFetch (direct_request file payload);
      BrowserConsoleError "API Error: The server did not return a valid image. Response:"
        (Response_text errorText)],
     Rejected (JsError
       "The API did not return a valid image. Please check the API key and prompt.")).
Proof.
  intros Hrespond Hstatus Hblob Htype Htext.
  rewrite (direct_call_answered _ _ _ Hrespond).
  assert (Hok : response_ok response = true).
  { unfold response_ok.
    rewrite (proj2 (Z.leb_le _ _)), (proj2 (Z.ltb_lt _ _)) by lia. reflexivity. }
  unfold direct_reply. rewrite Hok, Hblob. cbn [negb]. rewrite andThen_resolved.
  rewrite Htype, Htext. reflexivity.
Qed.


(** The request [callClaidApiProxy] sends for a file with at least one
    byte and truthy instructions is one the proxy function accepts, as
    soon as its [JSON.parse] reads the body back as it was written. *)
Lemma proxy_request_accepted (mime : string) (B : Buffer) (payload : json) :
  B <> [] ->
  truthy payload = true ->
  JSON_stringify
    (JObject [("imageBase64", JString ("data:" ++ mime ++ ";base64," ++ toString_base64 B));
              ("instructions", payload)]) <> EmptyString ->
  JSON_parse (JSON_stringify
    (JObject [("imageBase64", JString ("data:" ++ mime ++ ";base64," ++ toString_base64 B));
              ("instructions", payload)]))
    = Return
        (JObject [("imageBase64",
                   JString ("data:" ++ mime ++ ";base64," ++ toString_base64 B));
                  ("instructions", payload)]) ->
  accepted
    (netlify_event "POST" (JSON_stringify
       (JObject [("imageBase64",
                  JString ("data:" ++ mime ++ ";base64," ++ toString_base64 B));
                 ("instructions", payload)])))
    (toString_base64 B) payload.
Proof.
  intros HB Htruthy Hne Hparse. split; [reflexivity|].
  eexists _, _. split.
  - cbn [netlify_event event_body or_else].
    destruct (String.eqb_spec (JSON_stringify
      (JObject [("imageBase64",
                 JString ("data:" ++ mime ++ ";base64," ++ toString_base64 B));
                ("instructions", payload)])) EmptyString) as [E|_];
      [contradiction | exact Hparse].
  - repeat split; try assumption.
    + rewrite <- append_assoc. apply pop_split_marker, base64_no_semicolon.
    + now apply base64_not_empty.
Qed.

(** X13.  An edit through the proxy, end to end.  The file is read as
    the data URL of its bytes [B] (at least one); the proxy function
    serves the request of [callClaidApiProxy]; Claid.ai answers with a
    status in 200..299 and the bytes [R]; each JSON text is read back as
    it was written.  Then Claid.ai has received [B] with the
    instructions, and the call resolves to a data URL whose text after
    the [;base64,] marker decodes to exactly [R]. *)
Theorem edit_through_proxy (file : File) (payload : json) (mime : string) (B R : Buffer)
  (upstreamResponse : FetchResponse) (response : Response) :
  let imageBase64 := "data:" ++ mime ++ ";base64," ++ toString_base64 B in
  let envelope :=
    JObject [("imageBase64", JString imageBase64); ("instructions", payload)] in
  let imageData :=
    "data:" ++ or_else (Headers_get upstreamResponse "content-type") "image/png"
      ++ ";base64," ++ toString_base64 R in
  readAsDataURL file = Resolved imageBase64 ->
  B <> [] ->
  truthy payload = true ->
  JSON_stringify envelope <> EmptyString ->
  JSON_parse (JSON_stringify envelope) = Return envelope ->
  upstream (claid_request B payload) = Return upstreamResponse ->
  (200 <= status upstreamResponse < 300)%Z ->
  buffer upstreamResponse = Return R ->
  JSON_parse (JSON_stringify (JObject [("imageData", JString imageData)]))
    = Return (JObject [("imageData", JString imageData)]) ->
  respond (proxy_request imageBase64 payload) = Resolved response ->
  (forall t r,
     handler (netlify_event "POST" (JSON_stringify envelope)) = (t, Return r) ->
     delivers r response) ->
  fst (handler (netlify_event "POST" (JSON_stringify envelope)))
    = [Fetch (claid_request B payload)] /\
  callClaidApiProxy file payload =
    ([BrowserFetch (proxy_request imageBase64 payload)], Resolved (JString imageData)) /\
  exists base64Data,
    pop (split ";base64," imageData) = Some base64Data /\
    Buffer_from_base64 base64Data = R.
Proof.
  intros imageBase64 envelope imageData
    Hread HB Htruthy Hne Hparse Hup Hstatus Hbuf Hback Hrespond Hserved.
  pose proof (proxy_request_accepted mime B payload HB Htruthy Hne Hparse) as Hacc.
  fold imageBase64 in Hacc. fold envelope in Hacc.
  rewrite <- (base64_roundtrip B) in Hup.
  assert (Hok : ok upstreamResponse = true).
  { unfold ok. rewrite (proj2 (Z.leb_le _ _)), (proj2 (Z.ltb_lt _ _)) by lia.
    reflexivity. }
  pose proof (accepted_success _ _ _ _ R Hacc Hup Hok Hbuf) as Hhandler.
  fold imageData in Hhandler. rewrite base64_roundtrip in Hhandler.
  destruct (Hserved _ _ Hhandler) as [Hst Hjs]. cbn [statusCode body] in Hst, Hjs.
  rewrite Hback in Hjs. cbn [of_completion] in Hjs.
  split; [rewrite Hhandler; reflexivity|]. split.
  - rewrite (proxy_call_answered _ _ _ _ Hread Hrespond).
    unfold proxy_reply, response_ok. rewrite Hst, Hjs. cbn [Z.leb Z.ltb andb negb].
    rewrite andThen_resolved. cbn [get_imageData get own_property String.eqb].
    rewrite andThen_resolved. reflexivity.
  - exists (toString_base64 R). split.
    + unfold imageData. rewrite <- append_assoc.
      apply pop_split_marker, base64_no_semicolon.
    + apply base64_roundtrip.
Qed.


(** X14.  A failure of Claid.ai reaches the user, end to end.  In the
    setting of X13, when Claid.ai answers with a status outside
    200..299 and the text [errorBody], the call of [callClaidApiProxy]
    is rejected with the [Error] "The AI service returned an error.
    Claid.ai API failed: " followed by [errorBody], and the browser logs
    the status of Claid.ai. *)
Theorem upstream_failure_reaches_user (file : File) (payload : json) (mime : string)
  (B : Buffer) (upstreamResponse : FetchResponse) (errorBody : string)
  (response : Response) :
  let imageBase64 := "data:" ++ mime ++ ";base64," ++ toString_base64 B in
  let envelope :=
    JObject [("imageBase64", JString imageBase64); ("instructions", payload)] in
  let failure := JObject [("error", JString ("Claid.ai API failed: " ++ errorBody))] in
  readAsDataURL file = Resolved imageBase64 ->
  B <> [] ->
  truthy payload = true ->
  JSON_stringify envelope <> EmptyString ->
  JSON_parse (JSON_stringify envelope) = Return envelope ->
  upstream (claid_request B payload) = Return upstreamResponse ->
  (status upstreamResponse < 200 \/ 300 <= status upstreamResponse)%Z ->
  text upstreamResponse = Return errorBody ->
  JSON_parse (JSON_stringify failure) = Return failure ->
  respond (proxy_request imageBase64 payload) = Resolved response ->
  (forall t r,
     handler (netlify_event "POST" (JSON_stringify envelope)) = (t, Return r) ->
     delivers r response) ->
  callClaidApiProxy file payload =
    ([BrowserFetch (proxy_request imageBase64 payload);
      BrowserConsoleError "API Proxy Error:" (Failure (status upstreamResponse) failure)],
     Rejected (JsError
       ("The AI service returned an error. Claid.ai API failed: " ++ errorBody))).
Proof.
  intros imageBase64 envelope failure
    Hread HB Htruthy Hne Hparse Hup Hstatus Htext Hback Hrespond Hserved.
  pose proof (proxy_request_accepted mime B payload HB Htruthy Hne Hparse) as Hacc.
  fold imageBase64 in Hacc. fold envelope in Hacc.
  rewrite <- (base64_roundtrip B) in Hup.
  assert (Hok : ok upstreamResponse = false).
  { unfold ok. destruct Hstatus.
    - rewrite (proj2 (Z.leb_gt _ _)) by lia. reflexivity.
    - rewrite (proj2 (Z.ltb_ge _ _)) by lia. apply andb_false_r. }
  pose proof (accepted_failure _ _ _ _ _ Hacc Hup Hok Htext) as Hhandler.
  destruct (Hserved _ _ Hhandler) as [Hst Hjs].
  cbn [statusCode body error_response] in Hst, Hjs.
  unfold error_json in Hjs. fold failure in Hjs.
  rewrite Hback in Hjs. cbn [of_completion] in Hjs.
  rewrite (proxy_call_answered _ _ _ _ Hread Hrespond).
  assert (Hrok : response_ok response = false).
  { unfold response_ok. rewrite Hst. destruct Hstatus.
    - rewrite (proj2 (Z.leb_gt _ _)) by lia. reflexivity.
    - rewrite (proj2 (Z.ltb_ge _ _)) by lia. apply andb_false_r. }
  unfold proxy_reply, read_error_body. rewrite Hrok, Hjs, Hst. reflexivity.
Qed.

(** X15.  The two services shape the upload alike.  For a file with at
    least one byte that is read as the data URL of its bytes, and
    truthy instructions, [callClaidApi] and the proxy function serving
    [callClaidApiProxy] send Claid.ai the same URL and key, the same
    JSON text of the instructions and the same image bytes.  They
    differ in the file part: the browser sends the file itself, the
    proxy function its bytes under the name [upload.png] and the type
    [image/png], whatever the file was. *)
Theorem same_upload_either_way (file : File) (payload : json) :
  let imageBase64 :=
    "data:" ++ file_type file ++ ";base64," ++ toString_base64 (file_content file) in
  let envelope :=
    JObject [("imageBase64", JString imageBase64); ("instructions", payload)] in
  readAsDataURL file = Resolved imageBase64 ->
  file_content file <> [] ->
  truthy payload = true ->
  JSON_stringify envelope <> EmptyString ->
  JSON_parse (JSON_stringify envelope) = Return envelope ->
  browser_fetches (fst (callClaidApi file payload)) =
    [ {| endpoint := "https://api.claid.ai/v1/image-processing";
         http_method := "POST";
         http_headers :=
           [("Authorization", "Claid-API-Key b075a8d36b374209ac11df342fe68a73")];
         http_body :=
           FormBody [("source_image", inl file);
                     ("instructions", inr (JSON_stringify payload))] |} ] /\
  browser_fetches (fst (callClaidApiProxy file payload)) =
    [ {| endpoint := "/.netlify/functions/claid-proxy";
         http_method := "POST";
         http_headers := [("Content-Type", "application/json")];
         http_body := JsonText (JSON_stringify envelope) |} ] /\
  fetches (fst (handler (netlify_event "POST" (JSON_stringify envelope)))) =
    [ {| url := "https://api.claid.ai/v1/image-processing";
         method := "POST";
         request_headers :=
           [ ("Authorization", "Claid-API-Key b075a8d36b374209ac11df342fe68a73");
             ("content-type", "multipart/form-data; boundary=" ++ boundary) ];
         request_body :=
           [ {| part_name := "source_image";
                part_data := BufferValue (file_content file);
                part_filename := Some "upload.png";
                part_contentType := Some "image/png" |};
             {| part_name := "instructions";
                part_data := StringValue (JSON_stringify payload);
                part_filename := None;
                part_contentType := None |} ] |} ].
Proof.
  intros imageBase64 envelope Hread HB Htruthy Hne Hparse.
  pose proof (proxy_request_accepted (file_type file) (file_content file) payload
                HB Htruthy Hne Hparse) as Hacc.
  fold imageBase64 in Hacc. fold envelope in Hacc.
  split; [|split].
  - apply direct_fetches.
  - rewrite proxy_fetches, Hread. reflexivity.
  - rewrite (accepted_sends_once _ _ _ Hacc), base64_roundtrip. reflexivity.
Qed.

(** X16.  The three operations.  For a file with at least one byte that
    is read as the data URL of its bytes, each of
    [generateEditedImage], [generateFilteredImage] and
    [generateAdjustedImage] sends the proxy a request that the proxy
    function accepts, whatever the prompt and the hotspot are (an empty
    prompt included), as soon as the body is read back as it was
    written; Claid.ai then receives the bytes of the file and the JSON
    text of the instructions of the operation.  The same functions of
    the direct service send that same JSON text. *)
Theorem operations_are_accepted (file : File) (mime : string) (B : Buffer)
  (prompt : string) (x y : float) (payload : json) :
  let imageBase64 := "data:" ++ mime ++ ";base64," ++ toString_base64 B in
  let envelope :=
    JObject [("imageBase64", JString imageBase64); ("instructions", payload)] in
  readAsDataURL file = Resolved imageBase64 ->
  B <> [] ->
  JSON_stringify envelope <> EmptyString ->
  JSON_parse (JSON_stringify envelope) = Return envelope ->
  forall (viaProxy : Promise json) (direct : Promise string),
    (payload = edit_payload prompt x y /\
     viaProxy = generateEditedImage file prompt x y /\
     direct = direct_generateEditedImage file prompt x y) \/
    (payload = filter_payload prompt /\
     viaProxy = generateFilteredImage file prompt /\
     direct = direct_generateFilteredImage file prompt) \/
    (payload = adjustment_payload prompt /\
     viaProxy = generateAdjustedImage file prompt /\
     direct = direct_generateAdjustedImage file prompt) ->
    browser_fetches (fst viaProxy) = [proxy_request imageBase64 payload] /\
    accepted (netlify_event "POST" (JSON_stringify envelope)) (toString_base64 B) payload /\
    fetches (fst (handler (netlify_event "POST" (JSON_stringify envelope))))
      = [claid_request B payload] /\
    browser_fetches (fst direct) = [direct_request file payload].
Proof.
  intros imageBase64 envelope Hread HB Hne Hparse viaProxy direct Hop.
  assert (Htruthy : truthy payload = true)
    by (destruct Hop as [(-> & _)|[(-> & _)|(-> & _)]]; reflexivity).
  pose proof (proxy_request_accepted mime B payload HB Htruthy Hne Hparse) as Hacc.
  fold imageBase64 in Hacc. fold envelope in Hacc.
  assert (Hvia : viaProxy = callClaidApiProxy file payload)
    by (destruct Hop as [(-> & -> & _)|[(-> & -> & _)|(-> & -> & _)]]; reflexivity).
  assert (Hdirect : direct = callClaidApi file payload)
    by (destruct Hop as [(-> & _ & ->)|[(-> & _ & ->)|(-> & _ & ->)]]; reflexivity).
  rewrite Hvia, Hdirect.
  split; [rewrite proxy_fetches, Hread; reflexivity|].
  split; [exact Hacc|].
  split; [|apply direct_fetches].
  rewrite (accepted_sends_once _ _ _ Hacc), base64_roundtrip. reflexivity.
Qed.

End ServiceProperties.

(* ================================================================= *)
(** ** The services and the handler at work *)

Lemma netlify_delivers (platform : Platform) (req : browser_request) (text : string)
  (response : Response) :
  http_body req = JsonText text ->
  netlify platform req = Resolved response ->
  forall t r,
    @handler platform (netlify_event (http_method req) text) = (t, Return r) ->
    @delivers platform r response.
Proof.
  intros Hbody Hnet t r Hhandler. unfold netlify in Hnet.
  rewrite Hbody, Hhandler in Hnet. cbn [snd] in Hnet.
  injection Hnet as <-. split; reflexivity.
Qed.

Lemma success_needs_upstream_success_witness :
  exists t r,
    @handler (sepia_platform "data:image/png;base64,AAAA"
                (constant_server 200 [("content-type", "image/png")] [xde; xad]))
      (sepia_event "data:image/png;base64,AAAA") = (t, Return r) /\
    (200 <= statusCode r < 300)%Z /\
    exists base64Data instructions response resultBuffer,
      t = [Fetch (@claid_request
                    (sepia_platform "data:image/png;base64,AAAA"
                       (constant_server 200 [("content-type", "image/png")] [xde; xad]))
                    (Buffer_from_base64 base64Data) instructions)] /\
      constant_server 200 [("content-type", "image/png")] [xde; xad]
        (@claid_request
           (sepia_platform "data:image/png;base64,AAAA"
              (constant_server 200 [("content-type", "image/png")] [xde; xad]))
           (Buffer_from_base64 base64Data) instructions) = Return response /\
      buffer response = Return resultBuffer.
Proof.
  eexists _, _. split; [reflexivity|]. split; [cbn; lia|].
  destruct (@success_needs_upstream_success
              (sepia_platform "data:image/png;base64,AAAA"
                 (constant_server 200 [("content-type", "image/png")] [xde; xad]))
              (sepia_event "data:image/png;base64,AAAA") _ _ eq_refl
              (conj (Z.le_refl 200) eq_refl))
    as (_ & base64Data & instructions & response & resultBuffer & _ & Ht & Hup & _ & Hbuf).
  exists base64Data, instructions, response, resultBuffer.
  split; [exact Ht|]. split; [exact Hup | exact Hbuf].
Defined.

Lemma logging_discipline_witness :
  exists errorBody,
    logs (fst (@handler (sepia_platform "data:image/png;base64,AAAA"
                           (constant_server 503 [] (list_byte_of_string "rate limited")))
                 (sepia_event "data:image/png;base64,AAAA")))
      = [("Claid.ai API Error:", UpstreamFailure 503 errorBody)].
Proof.
  destruct (@logging_discipline
              (sepia_platform "data:image/png;base64,AAAA"
                 (constant_server 503 [] (list_byte_of_string "rate limited")))
              (sepia_event "data:image/png;base64,AAAA") _ _ eq_refl)
    as [[H _]|[(e & H & _)|(errorBody & H & _)]].
  - discriminate H.
  - discriminate H.
  - exists errorBody. exact H.
Defined.

Lemma non_string_image_is_internal_error_witness :
  truthy (JBool true) = true /\
  exists e,
    @handler (reading_back [JObject [("imageBase64", JBool true); ("instructions", sepia)]]
                unreachable_server)
      (post (render (JObject [("imageBase64", JBool true); ("instructions", sepia)])))
    = ([ConsoleError "Proxy Error:" (Thrown e)],
       Return {| statusCode := 500;
                 headers := None;
                 body := render (JObject [("error", JString
                           "An internal error occurred in the proxy function.")]) |}).
Proof.
  split; [reflexivity|].
  apply (@non_string_image_is_internal_error
           (reading_back [JObject [("imageBase64", JBool true); ("instructions", sepia)]]
              unreachable_server)
           (post (render (JObject [("imageBase64", JBool true); ("instructions", sepia)])))
           (JObject [("imageBase64", JBool true); ("instructions", sepia)])
           (JBool true) sepia);
    try reflexivity.
  intros s. discriminate.
Defined.

Lemma empty_body_is_missing_field_witness :
  @JSON_parse (stub [] unreachable_server) "{}" = Return (JObject []) /\
  @handler (stub [] unreachable_server) {| httpMethod := "POST"; event_body := Some "" |}
    = ([], Return {| statusCode := 400;
                     headers := None;
                     body := render (JObject [("error", JString
                       "Missing imageBase64 or instructions in request body")]) |}).
Proof.
  split; [reflexivity|].
  apply (@empty_body_is_missing_field (stub [] unreachable_server)
           {| httpMethod := "POST"; event_body := Some "" |});
    [reflexivity | right; reflexivity | reflexivity].
Defined.

Lemma relay_is_lossless_witness :
  exists imageData payload,
    snd (@handler (sepia_platform "data:image/png;base64,AAAA"
                     (constant_server 200 [("content-type", "image/jpeg")] [xde; xad]))
           (sepia_event "data:image/png;base64,AAAA"))
    = Return {| statusCode := 200;
                headers := Some [("Content-Type", "application/json")];
                body := render (JObject [("imageData", JString imageData)]) |} /\
    pop (split ";base64," imageData) = Some payload /\
    Buffer_from_base64 payload = [xde; xad].
Proof.
  apply (@relay_is_lossless
           (sepia_platform "data:image/png;base64,AAAA"
              (constant_server 200 [("content-type", "image/jpeg")] [xde; xad]))
           (sepia_event "data:image/png;base64,AAAA") "AAAA" sepia
           {| status := 200; response_headers := [("content-type", "image/jpeg")];
              text := Return (string_of_list_byte [xde; xad]);
              buffer := Return [xde; xad] |} [xde; xad]);
    [apply sepia_accepted | reflexivity | cbn; lia | reflexivity].
Defined.

Lemma result_can_be_resubmitted_witness :
  fetches (fst (@handler
                  (stub [sepia_request "data:image/png;base64,AAAA";
                         sepia_request "data:image/png;base64,3q0="]
                     (constant_server 200 [("content-type", "image/png")] [xde; xad]))
                  (sepia_event "data:image/png;base64,3q0=")))
  = [@claid_request
       (stub [sepia_request "data:image/png;base64,AAAA";
              sepia_request "data:image/png;base64,3q0="]
          (constant_server 200 [("content-type", "image/png")] [xde; xad]))
       [xde; xad] sepia].
Proof.
  refine (proj1 (proj2 (@result_can_be_resubmitted
            (stub [sepia_request "data:image/png;base64,AAAA";
                   sepia_request "data:image/png;base64,3q0="]
               (constant_server 200 [("content-type", "image/png")] [xde; xad]))
            (sepia_event "data:image/png;base64,AAAA") "AAAA" sepia
            {| status := 200; response_headers := [("content-type", "image/png")];
               text := Return (string_of_list_byte [xde; xad]);
               buffer := Return [xde; xad] |} [xde; xad] _ eq_refl _ eq_refl)
            (sepia_event "data:image/png;base64,3q0=")
            (snd (sepia_request "data:image/png;base64,3q0=")) sepia
            eq_refl eq_refl eq_refl eq_refl eq_refl) _).
  - split; [reflexivity|].
    exists (snd (sepia_request "data:image/png;base64,AAAA")), "data:image/png;base64,AAAA".
    repeat split. discriminate.
  - cbn; lia.
  - discriminate.
Defined.

Lemma proxy_failure_is_reported_witness :
  snd (@callClaidApiProxy (stub [] unreachable_server)
         (stub_browser (fun _ => Resolved (json_response 400
            (Resolved (JObject [("error", JString "Invalid Base64 data")])))))
         photo sepia)
  = Rejected (JsError "The AI service returned an error. Invalid Base64 data").
Proof.
  refine (proj1 (proj2 (@proxy_failure_is_reported (stub [] unreachable_server)
            (stub_browser (fun _ => Resolved (json_response 400
               (Resolved (JObject [("error", JString "Invalid Base64 data")])))))
            photo sepia "data:image/png;base64,AAAA"
            (json_response 400
               (Resolved (JObject [("error", JString "Invalid Base64 data")])))
            (JObject [("error", JString "Invalid Base64 data")])
            eq_refl eq_refl _ eq_refl))
            "Invalid Base64 data" eq_refl _).
  - right. cbn. lia.
  - discriminate.
Defined.

Lemma proxy_success_needs_image_data_witness :
  @callClaidApiProxy (stub [] unreachable_server)
    (stub_browser (fun _ => Resolved (json_response 200
       (Resolved (JObject [("imageData", JString "data:image/png;base64,3q0=")])))))
    photo sepia
  = ([BrowserFetch (@proxy_request (stub [] unreachable_server)
                      "data:image/png;base64,AAAA" sepia)],
     Resolved (JString "data:image/png;base64,3q0=")).
Proof.
  refine (proj1 (@proxy_success_needs_image_data (stub [] unreachable_server)
            (stub_browser (fun _ => Resolved (json_response 200
               (Resolved (JObject [("imageData",
                                    JString "data:image/png;base64,3q0=")])))))
            photo sepia "data:image/png;base64,AAAA"
            (json_response 200
               (Resolved (JObject [("imageData", JString "data:image/png;base64,3q0=")])))
            (JObject [("imageData", JString "data:image/png;base64,3q0=")])
            eq_refl eq_refl _ eq_refl _)
            (JString "data:image/png;base64,3q0=") eq_refl eq_refl).
  - cbn. lia.
  - discriminate.
Defined.

Lemma direct_rejects_non_image_witness :
  snd (@callClaidApi (stub [] unreachable_server)
         (stub_browser (fun _ => Resolved (blob_response 200
            {| blob_type := "text/html";
               blob_text := Resolved "<html>";
               blob_dataURL := Resolved "data:text/html;base64,PGh0bWw+" |})))
         photo sepia)
  = Rejected (JsError
      "The API did not return a valid image. Please check the API key and prompt.").
Proof.
  rewrite (@direct_rejects_non_image (stub [] unreachable_server)
             (stub_browser (fun _ => Resolved (blob_response 200
                {| blob_type := "text/html";
                   blob_text := Resolved "<html>";
                   blob_dataURL := Resolved "data:text/html;base64,PGh0bWw+" |})))
             photo sepia
             (blob_response 200
                {| blob_type := "text/html";
                   blob_text := Resolved "<html>";
                   blob_dataURL := Resolved "data:text/html;base64,PGh0bWw+" |})
             {| blob_type := "text/html";
                blob_text := Resolved "<html>";
                blob_dataURL := Resolved "data:text/html;base64,PGh0bWw+" |}
             "<html>" eq_refl);
    [reflexivity | cbn; lia | reflexivity ..].
Defined.

(** The platform and the browser of an edit of [photo] through the
    proxy. *)
Lemma edit_through_proxy_witness :
  @callClaidApiProxy
    (reading_back [photo_envelope;
                   JObject [("imageData", JString "data:image/png;base64,3q0=")]]
       (constant_server 200 [("content-type", "image/png")] [xde; xad]))
    (stub_browser (netlify
       (reading_back [photo_envelope;
                      JObject [("imageData", JString "data:image/png;base64,3q0=")]]
          (constant_server 200 [("content-type", "image/png")] [xde; xad]))))
    photo sepia
  = ([BrowserFetch
        (@proxy_request
           (reading_back [photo_envelope;
                          JObject [("imageData", JString "data:image/png;base64,3q0=")]]
              (constant_server 200 [("content-type", "image/png")] [xde; xad]))
           "data:image/png;base64,AAAA" sepia)],
     Resolved (JString "data:image/png;base64,3q0=")).
Proof.
  refine (proj1 (proj2 (@edit_through_proxy
            (reading_back [photo_envelope;
                           JObject [("imageData", JString "data:image/png;base64,3q0=")]]
               (constant_server 200 [("content-type", "image/png")] [xde; xad]))
            (stub_browser (netlify
               (reading_back [photo_envelope;
                              JObject [("imageData",
                                        JString "data:image/png;base64,3q0=")]]
                  (constant_server 200 [("content-type", "image/png")] [xde; xad]))))
            photo sepia "image/png" [x00; x00; x00] [xde; xad]
            {| status := 200; response_headers := [("content-type", "image/png")];
               text := Return (string_of_list_byte [xde; xad]);
               buffer := Return [xde; xad] |}
            (json_response 200
               (Resolved (JObject [("imageData", JString "data:image/png;base64,3q0=")])))
            eq_refl _ eq_refl _ eq_refl eq_refl _ eq_refl eq_refl eq_refl _))).
  - discriminate.
  - discriminate.
  - cbn. lia.
  - intros t r.
    match goal with
    | |- _ -> @delivers ?P _ _ =>
        eapply (netlify_delivers P (@proxy_request P "data:image/png;base64,AAAA" sepia));
          reflexivity
    end.
Defined.

Lemma upstream_failure_reaches_user_witness :
  snd (@callClaidApiProxy
         (reading_back [photo_envelope;
                        JObject [("error", JString "Claid.ai API failed: rate limited")]]
            (constant_server 503 [] (list_byte_of_string "rate limited")))
         (stub_browser (netlify
            (reading_back [photo_envelope;
                           JObject [("error",
                                     JString "Claid.ai API failed: rate limited")]]
               (constant_server 503 [] (list_byte_of_string "rate limited")))))
         photo sepia)
  = Rejected (JsError
      "The AI service returned an error. Claid.ai API failed: rate limited").
Proof.
  rewrite (@upstream_failure_reaches_user
            (reading_back [photo_envelope;
                           JObject [("error",
                                     JString "Claid.ai API failed: rate limited")]]
               (constant_server 503 [] (list_byte_of_string "rate limited")))
            (stub_browser (netlify
               (reading_back [photo_envelope;
                              JObject [("error",
                                        JString "Claid.ai API failed: rate limited")]]
                  (constant_server 503 [] (list_byte_of_string "rate limited")))))
            photo sepia "image/png" [x00; x00; x00]
            {| status := 503; response_headers := [];
               text := Return "rate limited";
               buffer := Return (list_byte_of_string "rate limited") |}
            "rate limited"
            (json_response 503
               (Resolved (JObject [("error",
                                    JString "Claid.ai API failed: rate limited")])))).
  - reflexivity.
  - reflexivity.
  - discriminate.
  - reflexivity.
  - discriminate.
  - reflexivity.
  - reflexivity.
  - right. cbn. lia.
  - reflexivity.
  - reflexivity.
  - reflexivity.
  - intros t r.
    match goal with
    | |- _ -> @delivers ?P _ _ =>
        eapply (netlify_delivers P (@proxy_request P "data:image/png;base64,AAAA" sepia));
          reflexivity
    end.
Defined.

Lemma same_upload_either_way_witness :
  fetches (fst (@handler (reading_back [photo_envelope] echo_server)
                  (netlify_event "POST" (render photo_envelope))))
  = [@claid_request (reading_back [photo_envelope] echo_server) [x00; x00; x00] sepia] /\
  @browser_fetches
    (fst (@callClaidApi (reading_back [photo_envelope] echo_server)
            (stub_browser (netlify (reading_back [photo_envelope] echo_server)))
            photo sepia))
  = [@direct_request (reading_back [photo_envelope] echo_server) photo sepia].
Proof.
  destruct (@same_upload_either_way (reading_back [photo_envelope] echo_server)
              (stub_browser (netlify (reading_back [photo_envelope] echo_server)))
              photo sepia eq_refl)
    as (Hdirect & _ & Hproxy);
    [discriminate | reflexivity | discriminate | reflexivity |].
  split; [exact Hproxy | exact Hdirect].
Defined.

Lemma operations_are_accepted_witness :
  fetches (fst (@handler
                  (reading_back
                     [JObject [("imageBase64", JString "data:image/png;base64,AAAA");
                               ("instructions", adjustment_payload "")]]
                     echo_server)
                  (netlify_event "POST"
                     (render (JObject
                        [("imageBase64", JString "data:image/png;base64,AAAA");
                         ("instructions", adjustment_payload "")])))))
  = [@claid_request
       (reading_back
          [JObject [("imageBase64", JString "data:image/png;base64,AAAA");
                    ("instructions", adjustment_payload "")]]
          echo_server)
       [x00; x00; x00] (adjustment_payload "")].
Proof.
  refine (proj1 (proj2 (proj2 (@operations_are_accepted
            (reading_back
               [JObject [("imageBase64", JString "data:image/png;base64,AAAA");
                         ("instructions", adjustment_payload "")]]
               echo_server)
            (stub_browser (netlify
               (reading_back
                  [JObject [("imageBase64", JString "data:image/png;base64,AAAA");
                            ("instructions", adjustment_payload "")]]
                  echo_server)))
            photo "image/png" [x00; x00; x00] "" 0%float 0%float (adjustment_payload "")
            eq_refl _ _ eq_refl _ _
            (or_intror (or_intror (conj eq_refl (conj eq_refl eq_refl)))))))).
  - discriminate.
  - discriminate.
Defined.
